(** * Rocket Medic: appointment scheduling and doctor availability

    A shallow embedding of the scheduling core of the hospital-management
    example (doctor availability, working hours, appointment orchestration)
    and the properties of its specification that were checked against it.

    JavaScript objects that are shared between the repositories and the
    appointments (doctors, patients) live in an explicit heap, so that an
    assignment through one alias is seen through every other alias.  A method
    is a function from the store to an outcome (a value or a thrown error)
    and the store it leaves.

    Identifiers are strings or [undefined]; strings are ASCII; numbers are
    [NaN] or whole; the host's time zone and [Date.parse] are parameters. *)

From Stdlib Require Import ZArith String Ascii List Bool Lia.
From stdpp Require Import base list strings.

Local Open Scope string_scope.
Local Open Scope Z_scope.

(** ** Host values and built-ins *)

Module Js.

(** A JavaScript number as the scheduling code meets it: [NaN], or a finite
    value.  Only whole numbers occur (hours, minutes, epoch milliseconds). *)
Inductive Num : Type :=
| NaN
| Fin (z : Z).

#[global] Instance Num_eq_dec : EqDecision Num.
Proof. solve_decision. Defined.

(** [a + b] *)
Definition add (a b : Num) : Num :=
  match a, b with
  | Fin x, Fin y => Fin (x + y)
  | _, _ => NaN
  end.

(** [a * b] *)
Definition mul (a b : Num) : Num :=
  match a, b with
  | Fin x, Fin y => Fin (x * y)
  | _, _ => NaN
  end.

(** [a === b] on numbers: [NaN] is equal to nothing, itself included. *)
Definition strictEq (a b : Num) : bool :=
  match a, b with
  | Fin x, Fin y => x =? y
  | _, _ => false
  end.

(** [a >= b] and [a <= b]: every comparison with [NaN] is false. *)
Definition ge (a b : Num) : bool :=
  match a, b with
  | Fin x, Fin y => y <=? x
  | _, _ => false
  end.

Definition le (a b : Num) : bool :=
  match a, b with
  | Fin x, Fin y => x <=? y
  | _, _ => false
  end.

(** [isNaN(a)] *)
Definition isNaN (a : Num) : bool :=
  match a with NaN => true | Fin _ => false end.

(** Truthiness of a number ([0] and [NaN] are falsy) and of a string (the
    empty string is falsy). *)
Definition truthyNum (a : Num) : bool :=
  match a with
  | NaN => false
  | Fin z => negb (z =? 0)
  end.

Definition truthyStr (s : string) : bool :=
  match s with
  | EmptyString => false
  | String _ _ => true
  end.

(** [s.includes(sub)] *)
Fixpoint includes (s sub : string) : bool :=
  String.prefix sub s
  || match s with
     | EmptyString => false
     | String _ r => includes r sub
     end.

(** [s.split(sep)] for a non-empty separator: the pieces between the
    occurrences of [sep], found from left to right.  [skip] counts the
    characters of a separator just matched that are still to be dropped. *)
Fixpoint splitFrom (sep : string) (skip : nat) (cur s : string) : list string :=
  match s with
  | EmptyString => [cur]
  | String c r =>
      match skip with
      | S k => splitFrom sep k cur r
      | O =>
          if String.prefix sep s
          then cur :: splitFrom sep (Nat.pred (String.length sep)) EmptyString r
          else splitFrom sep O (cur +:+ String c EmptyString) r
      end
  end.

Definition split (s sep : string) : list string :=
  splitFrom sep O EmptyString s.

(** [s.replace(/AM|PM/g, '')] *)
Fixpoint removeAMPM (s : string) : string :=
  match s with
  | EmptyString => EmptyString
  | String c r =>
      match r with
      | String "M" r' =>
          if (Ascii.eqb c "A" || Ascii.eqb c "P")%bool
          then removeAMPM r'
          else String c (removeAMPM r)
      | _ => String c (removeAMPM r)
      end
  end.

(** White space as [trim] and the string-to-number conversion see it, within
    ASCII: TAB, LF, VT, FF, CR and SPACE. *)
Definition isWhiteSpace (c : ascii) : bool :=
  let n := nat_of_ascii c in
  ((9 <=? n)%nat && (n <=? 13)%nat) || (n =? 32)%nat.

Fixpoint trimStart (s : string) : string :=
  match s with
  | EmptyString => EmptyString
  | String c r => if isWhiteSpace c then trimStart r else s
  end.

Fixpoint trimEnd (s : string) : string :=
  match s with
  | EmptyString => EmptyString
  | String c r =>
      match trimEnd r with
      | EmptyString => if isWhiteSpace c then EmptyString else String c EmptyString
      | r' => String c r'
      end
  end.

(** [s.trim()] *)
Definition trim (s : string) : string := trimEnd (trimStart s).

Definition digitValue (c : ascii) : option Z :=
  let n := nat_of_ascii c in
  if ((48 <=? n)%nat && (n <=? 57)%nat)%bool
  then Some (Z.of_nat n - 48)
  else None.

Fixpoint digitsFrom (acc : Z) (s : string) : option Z :=
  match s with
  | EmptyString => Some acc
  | String c r =>
      match digitValue c with
      | Some d => digitsFrom (10 * acc + d) r
      | None => None
      end
  end.

Definition unsignedDigits (s : string) : option Z :=
  match s with
  | EmptyString => None
  | String _ _ => digitsFrom 0 s
  end.

(** [Number(s)] on the literals the time strings are made of: surrounding
    white space is dropped, the empty string is [0], an optionally signed run
    of decimal digits is its value, and a string that is no numeric literal is
    [NaN].  Literals with a fraction, an exponent or a radix prefix and
    [Infinity] are outside this fragment. *)
Definition Number (s : string) : Num :=
  match trim s with
  | EmptyString => Fin 0
  | String c r as t =>
      if Ascii.eqb c "-" then
        match unsignedDigits r with Some z => Fin (- z) | None => NaN end
      else if Ascii.eqb c "+" then
        match unsignedDigits r with Some z => Fin z | None => NaN end
      else
        match unsignedDigits t with Some z => Fin z | None => NaN end
  end.

(** Exceptions, by constructor. *)
Inductive Exn : Type :=
| Error (message : string)
| TypeError (message : string)
| RangeError (message : string).

#[global] Instance Exn_eq_dec : EqDecision Exn.
Proof. solve_decision. Defined.

(** The outcome of an expression that may throw. *)
Inductive Result (A : Type) : Type :=
| Ok (a : A)
| Throw (e : Exn).
Arguments Ok {A} a.
Arguments Throw {A} e.

Definition isThrow {A} (r : Result A) : bool :=
  match r with Ok _ => false | Throw _ => true end.

(** [l.some(f)] for a callback that may throw: stops at the first element on
    which [f] is true, or at the first throw. *)
Fixpoint some {A} (f : A -> Result bool) (l : list A) : Result bool :=
  match l with
  | [] => Ok false
  | x :: r =>
      match f x with
      | Ok true => Ok true
      | Ok false => some f r
      | Throw e => Throw e
      end
  end.

(** A [Date] object, by its time value: epoch milliseconds, or [NaN] for an
    invalid date. *)
Record Date : Type := mkDate { getTime : Num }.

#[global] Instance Date_eq_dec : EqDecision Date.
Proof. solve_decision. Defined.

End Js.

Import Js.

(** ** Locale formatting of dates

    [toLocaleDateString] and [toLocaleTimeString] render the local time of the
    host.  The host's time zone enters as [getTimezoneOffset]: the minutes to
    add to local time to reach UTC at a given instant. *)

Section Locale.

Variable getTimezoneOffset : Z -> Z.

(** Milliseconds since the epoch on the local clock. *)
Definition localTime (t : Z) : Z := t - getTimezoneOffset t * 60000.

(** Day of the week of an instant, [0] for Sunday; the epoch fell on a
    Thursday. *)
Definition localDay (t : Z) : Z := (localTime t / 86400000 + 4) mod 7.

(** Minutes since local midnight. *)
Definition localMinutes (t : Z) : Z := (localTime t / 60000) mod 1440.

Definition weekdayName (d : Z) : string :=
  match d with
  | 0 => "Sunday"
  | 1 => "Monday"
  | 2 => "Tuesday"
  | 3 => "Wednesday"
  | 4 => "Thursday"
  | 5 => "Friday"
  | _ => "Saturday"
  end.

Definition digitChar (d : Z) : ascii := ascii_of_nat (48 + Z.to_nat d).

(** A number below 100 on two digits. *)
Definition twoDigits (n : Z) : string :=
  String (digitChar (n / 10)) (String (digitChar (n mod 10)) EmptyString).

(** The clock of the [en-US] locale for a minute of the day: twelve-hour
    cycle, midnight and noon shown as 12. *)
Definition clock12 (m : Z) : string :=
  let h := m / 60 in
  let h12 := if h mod 12 =? 0 then 12 else h mod 12 in
  twoDigits h12 +:+ ":" +:+ twoDigits (m mod 60) +:+ " "
    +:+ (if h <? 12 then "AM" else "PM").

(** [date.toLocaleDateString('en-US', { weekday: 'long' })] *)
Definition toLocaleDateString_weekday (date : Date) : string :=
  match getTime date with
  | NaN => "Invalid Date"
  | Fin t => weekdayName (localDay t)
  end.

(** [date.toLocaleTimeString('en-US', { hour: '2-digit', minute: '2-digit' })] *)
Definition toLocaleTimeString_hm (date : Date) : string :=
  match getTime date with
  | NaN => "Invalid Date"
  | Fin t => clock12 (localMinutes t)
  end.

End Locale.

(** [date.toISOString()]: throws on an invalid date.  The rendered text only
    reaches the console; it is kept as the instant it denotes. *)
Definition toISOString (date : Date) : Result Z :=
  match getTime date with
  | NaN => Throw (RangeError "Invalid time value")
  | Fin t => Ok t
  end.

(** ** Entities and value objects *)

(** An identifier as it arrives from a caller: a string, or [undefined]. *)
Definition Id : Type := option string.

(** Truthiness of an identifier: [undefined] and the empty string are falsy. *)
Definition truthyId (i : Id) : bool :=
  match i with
  | None => false
  | Some s => truthyStr s
  end.

(** [a || b] on identifiers. *)
Definition orId (a b : Id) : Id := if truthyId a then a else b.

(** [`${id}`] *)
Definition showId (i : Id) : string :=
  match i with
  | None => "undefined"
  | Some s => s
  end.

(** One entry of a doctor's working hours: [{ day, timeSlot }]. *)
Record WorkingHour : Type := mkWorkingHour {
  day : string;
  timeSlot : string
}.

#[global] Instance WorkingHour_eq_dec : EqDecision WorkingHour.
Proof. solve_decision. Defined.

(** Modelled from the spec: the [WorkingHours] value object that
    [domain/value-objects/workingHours.js] declares, an ordered collection of
    day and time-slot entries held in the array [hours]. *)
Record WorkingHours : Type := mkWorkingHours {
  hours : list WorkingHour
}.

#[global] Instance WorkingHours_eq_dec : EqDecision WorkingHours.
Proof. solve_decision. Defined.

(** [class Doctor]; the constructor ignores [availableHours] and starts every
    doctor with [new WorkingHours()]. *)
Record Doctor : Type := mkDoctor {
  d_id : Id;
  d_rcm : string;
  d_name : string;
  d_specialty : list string;
  d_phoneNumber : string;
  d_workingHours : WorkingHours
}.

#[global] Instance Doctor_eq_dec : EqDecision Doctor.
Proof. solve_decision. Defined.

(** [class Patient], by the fields the scheduling code reads. *)
Record Patient : Type := mkPatient {
  p_id : Id;
  p_identificationDocument : string;
  p_name : string;
  p_phoneNumber : string;
  p_email : string
}.

#[global] Instance Patient_eq_dec : EqDecision Patient.
Proof. solve_decision. Defined.

(** A heap address.  Doctors and patients are objects: a repository and any
    number of appointments may hold the same one. *)
Definition loc : Type := nat.

(** The appointment record that [AppointmentService.execute] builds; [patient]
    and [doctor] are references to the objects found in the repositories. *)
Record Appointment : Type := mkAppointment {
  a_id : Id;
  a_date : Date;
  a_patient : loc;
  a_doctor : loc;
  a_reason : option string;
  a_status : string;
  a_observations : string
}.

#[global] Instance Appointment_eq_dec : EqDecision Appointment.
Proof. solve_decision. Defined.

(** ** Working-hours arithmetic of [DoctorAvailabilityService] *)

(** The inner [timeToMinutes] of [isTimeWithinSlot].  Its argument is
    [undefined] when the slot had no second piece; reading [includes] off
    [undefined] throws. *)
Definition timeToMinutes (timeStr : option string) : Result Num :=
  match timeStr with
  | None =>
      Throw (TypeError "Cannot read properties of undefined (reading 'includes')")
  | Some timeStr =>
      let isPM := includes timeStr "PM" in
      let isAM := includes timeStr "AM" in
      let cleanTime := trim (removeAMPM timeStr) in
      let parts := map Number (split cleanTime ":") in
      let hours := nth 0 parts NaN in
      let minutes := nth_error parts 1 in
      let adjustedHours :=
        if isPM && negb (strictEq hours (Fin 12)) then add hours (Fin 12)
        else if isAM && strictEq hours (Fin 12) then Fin 0
        else hours in
      let minutesOr0 :=
        match minutes with
        | Some m => if truthyNum m then m else Fin 0
        | None => Fin 0
        end in
      Ok (add (mul adjustedHours (Fin 60)) minutesOr0)
  end.

(** [isTimeWithinSlot(time, timeSlot)] *)
Definition isTimeWithinSlot (time timeSlot : string) : Result bool :=
  let pieces := split timeSlot " - " in
  let startTime := nth_error pieces 0 in
  let endTime := nth_error pieces 1 in
  match timeToMinutes (Some time) with
  | Throw e => Throw e
  | Ok timeInMinutes =>
      match timeToMinutes startTime with
      | Throw e => Throw e
      | Ok startInMinutes =>
          match timeToMinutes endTime with
          | Throw e => Throw e
          | Ok endInMinutes =>
              Ok (ge timeInMinutes startInMinutes && le timeInMinutes endInMinutes)
          end
      end
  end.

Section Availability.

Variable getTimezoneOffset : Z -> Z.

(** [isWithinWorkingHours(doctor, date)] *)
Definition isWithinWorkingHours (doctor : Doctor) (date : Date) : Result bool :=
  let dayOfWeek := toLocaleDateString_weekday getTimezoneOffset date in
  let timeSlot_ := toLocaleTimeString_hm getTimezoneOffset date in
  some
    (fun workingHour =>
       if String.eqb (day workingHour) dayOfWeek
       then isTimeWithinSlot timeSlot_ (timeSlot workingHour)
       else Ok false)
    (hours (d_workingHours doctor)).

End Availability.

(** ** The generic repository *)

Module Repository.

Section Repo.

Context {V : Type}.

(** Modelled from the spec: the base class of
    [domain/repositories/repository.js], an in-memory keyed collection; the
    listing of the class in [concepts/what-is-domain.md] reads the same.  Its
    [data] is a [Map]: one entry per key, [findAll] lists the values in
    insertion order, and storing under an existing key keeps the key's
    place. *)
Definition t : Type := list (Id * V).

(** [data.get(id)], [data.has(id)] and [data.set(id, entity)] of the [Map]. *)
Fixpoint get (data : t) (id : Id) : option V :=
  match data with
  | [] => None
  | (k, v) :: r => if decide (k = id) then Some v else get r id
  end.

Definition has (data : t) (id : Id) : bool :=
  match get data id with
  | Some _ => true
  | None => false
  end.

Fixpoint set (data : t) (id : Id) (entity : V) : t :=
  match data with
  | [] => [(id, entity)]
  | (k, v) :: r =>
      if decide (k = id) then (k, entity) :: r else (k, v) :: set r id entity
  end.

(** Modelled from the spec: [add(id, entity)] fails if [id] is already
    present. *)
Definition add (data : t) (id : Id) (entity : V) : Result t :=
  if has data id
  then Throw (Error ("Entity with id " +:+ showId id +:+ " already exists."))
  else Ok (set data id entity).

(** Modelled from the spec: [findById(id)] returns the entity, or nothing
    when [id] is absent; it never raises. *)
Definition findById (data : t) (id : Id) : option V := get data id.

(** Modelled from the spec: [findAll()] returns all values in insertion
    order. *)
Definition findAll (data : t) : list V := map snd data.

(** Modelled from the spec: [update(id, entity)] fails if [id] is absent. *)
Definition update (data : t) (id : Id) (entity : V) : Result t :=
  if has data id
  then Ok (set data id entity)
  else Throw (Error ("Entity with id " +:+ showId id +:+ " does not exist.")).

(** [data.delete(id)] of the [Map]. *)
Fixpoint remove (data : t) (id : Id) : t :=
  match data with
  | [] => []
  | (k, v) :: r => if decide (k = id) then remove r id else (k, v) :: remove r id
  end.

(** Modelled from the spec: [delete(id)] fails if [id] is absent. *)
Definition delete (data : t) (id : Id) : Result t :=
  if has data id
  then Ok (remove data id)
  else Throw (Error ("Entity with id " +:+ showId id +:+ " does not exist.")).

End Repo.

Arguments t V : clear implicits.

End Repository.

(** ** The store: heap, repositories and console *)

(** What reaches the console.  The lines are kept by their template and the
    values spliced into it. *)
Inductive LogLine : Type :=
| ConflictLine (iso : Z)
    (* Doctor has a conflicting appointment on ${iso} *)
| OutsideHoursLine (iso : Z)
    (* Requested time ${iso} is outside of doctor's working hours *)
| EmailLine (email doctorName : string) (date : Date).
    (* Sending email to ${email} with message: Your appointment with
       Dr. ${doctorName} is scheduled for ${formattedDate} at
       ${formattedTime}. *)

(** The repositories hold references; [doctorHeap] and [patientHeap] give the
    object behind each reference, and an address nobody holds carries an
    object nobody reads.  An appointment's [doctor] is the very object the
    doctor repository returned when the appointment was made. *)
Record Store : Type := mkStore {
  doctorHeap : loc -> Doctor;
  patientHeap : loc -> Patient;
  doctorRepository : Repository.t loc;
  patientRepository : Repository.t loc;
  appointmentRepository : Repository.t Appointment;
  console : list LogLine
}.

Definition withDoctorHeap (h : loc -> Doctor) (st : Store) : Store :=
  mkStore h (patientHeap st) (doctorRepository st) (patientRepository st)
    (appointmentRepository st) (console st).

Definition withDoctorRepository (r : Repository.t loc) (st : Store) : Store :=
  mkStore (doctorHeap st) (patientHeap st) r (patientRepository st)
    (appointmentRepository st) (console st).

Definition withAppointmentRepository (r : Repository.t Appointment) (st : Store)
  : Store :=
  mkStore (doctorHeap st) (patientHeap st) (doctorRepository st)
    (patientRepository st) r (console st).

Definition withConsole (c : list LogLine) (st : Store) : Store :=
  mkStore (doctorHeap st) (patientHeap st) (doctorRepository st)
    (patientRepository st) (appointmentRepository st) c.

(** Writing [d] at address [l]. *)
Definition heapSet {A} (h : loc -> A) (l : loc) (d : A) : loc -> A :=
  fun l' => if decide (l' = l) then d else h l'.

(** A method body: it runs on a store, returns or throws, and leaves a store
    behind either way. *)
Definition M (A : Type) : Type := Store -> Result A * Store.

Definition ret {A} (a : A) : M A := fun st => (Ok a, st).

Definition bind {A B} (m : M A) (k : A -> M B) : M B :=
  fun st =>
    match m st with
    | (Ok a, st') => k a st'
    | (Throw e, st') => (Throw e, st')
    end.

Definition throw {A} (e : Exn) : M A := fun st => (Throw e, st).

Definition lift {A} (r : Result A) : M A := fun st => (r, st).

Definition gets {A} (f : Store -> A) : M A := fun st => (Ok (f st), st).

Definition modify (f : Store -> Store) : M unit := fun st => (Ok tt, f st).

Notation "x <- m ;; k" := (bind m (fun x => k))
  (at level 100, m at next level, right associativity).
Notation "m ;;; k" := (bind m (fun _ => k))
  (at level 100, right associativity).

(** [console.log(line)] *)
Definition consoleLog (line : LogLine) : M unit :=
  modify (fun st => withConsole (console st ++ [line]) st).

(** [l.filter(f)] for a callback with effects. *)
Fixpoint filterM {A} (f : A -> M bool) (l : list A) : M (list A) :=
  match l with
  | [] => ret []
  | x :: r =>
      keep <- f x ;;
      r' <- filterM f r ;;
      ret (if keep then x :: r' else r')
  end.

(** ** [AppointmentRepository] *)

Definition setDoctorId (doctorId : Id) (d : Doctor) : Doctor :=
  mkDoctor doctorId (d_rcm d) (d_name d) (d_specialty d) (d_phoneNumber d)
    (d_workingHours d).

(** The filter callback of [findByDoctorId]:
    [(appointment) => (appointment.doctor.id = doctorId)].  It is an
    assignment: it writes [doctorId] into the doctor object the appointment
    refers to, and its value is [doctorId]. *)
Definition assignDoctorId (appointment : Appointment) (doctorId : Id) : M Id :=
  modify (fun st =>
            withDoctorHeap
              (heapSet (doctorHeap st) (a_doctor appointment)
                 (setDoctorId doctorId (doctorHeap st (a_doctor appointment))))
              st) ;;;
  ret doctorId.

(** [findByDoctorId(doctorId)] *)
Definition findByDoctorId (doctorId : Id) : M (list Appointment) :=
  all <- gets (fun st => Repository.findAll (appointmentRepository st)) ;;
  filterM
    (fun appointment =>
       v <- assignDoctorId appointment doctorId ;;
       ret (truthyId v))
    all.

(** [findByStatus(status)] *)
Definition findByStatus (status : string) : M (list Appointment) :=
  all <- gets (fun st => Repository.findAll (appointmentRepository st)) ;;
  ret (filter (fun appointment => a_status appointment = status) all).

(** ** [DoctorService] and [PatientService] lookups *)

(** [findDoctorById(doctorId)]: the reference stored under [doctorId]. *)
Definition findDoctorById (doctorId : Id) : M (option loc) :=
  gets (fun st => Repository.findById (doctorRepository st) doctorId).

(** [findPatientById(patientId)] *)
Definition findPatientById (patientId : Id) : M (option loc) :=
  gets (fun st => Repository.findById (patientRepository st) patientId).

(** Reading the object behind a doctor reference. *)
Definition readDoctor (doctor : loc) : M Doctor :=
  gets (fun st => doctorHeap st doctor).

(** ** [DoctorAvailabilityService] *)

(** A value passed where a date is expected. *)
Inductive Value : Type :=
| VDate (date : Date)
| VString (s : string)
| VOther.

Section Services.

Variable getTimezoneOffset : Z -> Z.

(** [hasAppointmentConflict(doctorId, date)] *)
Definition hasAppointmentConflict (doctorId : Id) (date : Date) : M bool :=
  doctorAppointments <- findByDoctorId doctorId ;;
  ret (existsb
         (fun appointment =>
            strictEq (getTime (a_date appointment)) (getTime date))
         doctorAppointments).

(** [isDoctorAvailable(doctorId, date)] *)
Definition isDoctorAvailable (doctorId : Id) (date : Value) : M bool :=
  doctor <- findDoctorById doctorId ;;
  match doctor with
  | None => throw (Error "Doctor not found")
  | Some doctor =>
      match date with
      | VDate date =>
          conflict <- hasAppointmentConflict doctorId date ;;
          if conflict then
            iso <- lift (toISOString date) ;;
            consoleLog (ConflictLine iso) ;;;
            ret false
          else
            d <- readDoctor doctor ;;
            within <- lift (isWithinWorkingHours getTimezoneOffset d date) ;;
            if negb within then
              iso <- lift (toISOString date) ;;
              consoleLog (OutsideHoursLine iso) ;;;
              ret false
            else ret true
      | _ => throw (Error "Invalid date")
      end
  end.

End Services.

(** ** [NotificationService] *)

(** [sendEmailNotification(email, message)] writes one line to the console.
    The message of an appointment is kept by the doctor's name and the date
    that its text renders. *)
Definition sendEmailNotification (email doctorName : string) (date : Date)
  : M unit :=
  consoleLog (EmailLine email doctorName date).

(** [notifyAppointmentScheduled(appointment)]: reads the doctor's name and
    the patient's email through the appointment's references and sends one
    email. *)
Definition notifyAppointmentScheduled (appointment : Appointment) : M unit :=
  doctorName <- gets (fun st => d_name (doctorHeap st (a_doctor appointment))) ;;
  email <- gets (fun st => p_email (patientHeap st (a_patient appointment))) ;;
  sendEmailNotification email doctorName (a_date appointment).

(** ** [AppointmentService] *)

(** The request handed to [execute].  [ad_patient_id] and [ad_doctor_id] are
    the values of [appointmentData.patient?.id] and
    [appointmentData.doctor?.id]. *)
Record AppointmentData : Type := mkAppointmentData {
  ad_id : Id;
  ad_date : Value;
  ad_patientId : Id;
  ad_patient_id : Id;
  ad_doctorId : Id;
  ad_doctor_id : Id;
  ad_reason : option string;
  ad_status : option string;
  ad_observations : option string
}.

(** [s || fallback] for an optional string. *)
Definition orString (s : option string) (fallback : string) : string :=
  match s with
  | Some v => if truthyStr v then v else fallback
  | None => fallback
  end.

(** [appointmentData.patientId || appointmentData.patient?.id] and
    [appointmentData.doctorId || appointmentData.doctor?.id] *)
Definition requestPatientId (appointmentData : AppointmentData) : Id :=
  orId (ad_patientId appointmentData) (ad_patient_id appointmentData).

Definition requestDoctorId (appointmentData : AppointmentData) : Id :=
  orId (ad_doctorId appointmentData) (ad_doctor_id appointmentData).

Section AppointmentService.

Variable getTimezoneOffset : Z -> Z.

(** [Date.parse]: the time value of [new Date(s)] for a string [s]. *)
Variable DateParse : string -> Num.

(** The first statement of [execute]: a string is parsed, anything else is
    taken as it is. *)
Definition requestDate (v : Value) : Value :=
  match v with
  | VString s => VDate (mkDate (DateParse s))
  | _ => v
  end.

(** [execute(appointmentData)] *)
Definition execute (appointmentData : AppointmentData) : M Appointment :=
  match requestDate (ad_date appointmentData) with
  | VDate date =>
      if isNaN (getTime date) then throw (Error "Invalid appointment date")
      else
        let patientId := requestPatientId appointmentData in
        let doctorId := requestDoctorId appointmentData in
        if negb (truthyId patientId) || negb (truthyId doctorId)
        then throw (Error "Patient ID and Doctor ID are required")
        else
          patient <- findPatientById patientId ;;
          match patient with
          | None => throw (Error "Patient not found")
          | Some patient =>
              doctor <- findDoctorById doctorId ;;
              match doctor with
              | None => throw (Error "Doctor not found")
              | Some doctor =>
                  available <-
                    isDoctorAvailable getTimezoneOffset doctorId (VDate date) ;;
                  if negb available
                  then throw (Error "Doctor is not available at the requested time")
                  else
                    let appointment :=
                      mkAppointment
                        (ad_id appointmentData)
                        date
                        patient
                        doctor
                        (ad_reason appointmentData)
                        (orString (ad_status appointmentData) "scheduled")
                        (orString (ad_observations appointmentData) "") in
                    repo <- gets appointmentRepository ;;
                    repo' <- lift (Repository.add repo (a_id appointment) appointment) ;;
                    modify (withAppointmentRepository repo') ;;;
                    notifyAppointmentScheduled appointment ;;;
                    ret appointment
              end
          end
  | _ => throw (Error "Invalid appointment date")
  end.

(** [findById(id)] *)
Definition findById (id : Id) : M Appointment :=
  appointment <- gets (fun st => Repository.findById (appointmentRepository st) id) ;;
  match appointment with
  | None => throw (Error "Appointment not found")
  | Some appointment => ret appointment
  end.

End AppointmentService.

(** ** [DoctorWorkingHoursService] *)

Definition setHours (hs : list WorkingHour) (d : Doctor) : Doctor :=
  mkDoctor (d_id d) (d_rcm d) (d_name d) (d_specialty d) (d_phoneNumber d)
    (mkWorkingHours hs).

(** [doctor.workingHours.hours = hs], through the reference. *)
Definition writeHours (doctor : loc) (hs : list WorkingHour) : M unit :=
  modify (fun st =>
            withDoctorHeap
              (heapSet (doctorHeap st) doctor (setHours hs (doctorHeap st doctor)))
              st).

(** [this.doctorRepository.update(doctor.id, doctor)]: the key is the [id]
    field the object holds at that moment. *)
Definition updateDoctor (doctor : loc) : M unit :=
  d <- readDoctor doctor ;;
  repo <- gets doctorRepository ;;
  repo' <- lift (Repository.update repo (d_id d) doctor) ;;
  modify (withDoctorRepository repo').

(** [addDoctorWorkingHours(doctorId, day, timeSlot)] *)
Definition addDoctorWorkingHours (doctorId : Id) (day_ timeSlot_ : string)
  : M loc :=
  doctor <- findDoctorById doctorId ;;
  match doctor with
  | None => throw (Error "Doctor not found")
  | Some doctor =>
      d <- readDoctor doctor ;;
      let hasWorkingHours :=
        existsb
          (fun workingHour =>
             String.eqb (day workingHour) day_
             && String.eqb (timeSlot workingHour) timeSlot_)
          (hours (d_workingHours d)) in
      if hasWorkingHours
      then throw (Error "Working hours already exists for this doctor")
      else
        writeHours doctor (hours (d_workingHours d) ++ [mkWorkingHour day_ timeSlot_]) ;;;
        updateDoctor doctor ;;;
        ret doctor
  end.

(** The filter of [removeWorkingHours]:
    [(hour) => hour.day !== day && hour.timeSlot !== timeSlot]. *)
Definition keepsHour (day_ timeSlot_ : string) (hour : WorkingHour) : bool :=
  negb (String.eqb (day hour) day_) && negb (String.eqb (timeSlot hour) timeSlot_).

(** [removeWorkingHours(doctorId, day, timeSlot)] *)
Definition removeWorkingHours (doctorId : Id) (day_ timeSlot_ : string)
  : M loc :=
  doctor <- findDoctorById doctorId ;;
  match doctor with
  | None => throw (Error "Doctor not found")
  | Some doctor =>
      d <- readDoctor doctor ;;
      writeHours doctor
        (List.filter (keepsHour day_ timeSlot_) (hours (d_workingHours d))) ;;;
      updateDoctor doctor ;;;
      ret doctor
  end.

(** Calling a value that is an array: an array has no call behaviour, so the
    call throws before anything is returned. *)
Definition callArray {A} (name : string) (array : list A) : Result (list A) :=
  Throw (TypeError (name +:+ " is not a function")).

(** [listWorkingHours(doctorId)]: its last line is
    [return doctor.workingHours.hours();]. *)
Definition listWorkingHours (doctorId : Id) : M (list WorkingHour) :=
  doctor <- findDoctorById doctorId ;;
  match doctor with
  | None => throw (Error "Doctor not found")
  | Some doctor =>
      d <- readDoctor doctor ;;
      lift (callArray "doctor.workingHours.hours" (hours (d_workingHours d)))
  end.

(** Modelled from the spec: [removeHours(day, timeSlot)] of the [WorkingHours]
    value object, which filters out the entries matching both fields
    exactly. *)
Definition removeHours (day_ timeSlot_ : string) (w : WorkingHours) : WorkingHours :=
  mkWorkingHours
    (List.filter
       (fun hour =>
          negb (String.eqb (day hour) day_ && String.eqb (timeSlot hour) timeSlot_))
       (hours w)).

(** ** More of [AppointmentRepository] *)

Definition withPatientHeap (h : loc -> Patient) (st : Store) : Store :=
  mkStore (doctorHeap st) h (doctorRepository st) (patientRepository st)
    (appointmentRepository st) (console st).

Definition setPatientId (patientId : Id) (p : Patient) : Patient :=
  mkPatient patientId (p_identificationDocument p) (p_name p) (p_phoneNumber p)
    (p_email p).

(** The filter callback of [findByPatientId]:
    [(appointment) => (appointment.patient.id = patientId)], an assignment
    like the one of [findByDoctorId]. *)
Definition assignPatientId (appointment : Appointment) (patientId : Id) : M Id :=
  modify (fun st =>
            withPatientHeap
              (heapSet (patientHeap st) (a_patient appointment)
                 (setPatientId patientId (patientHeap st (a_patient appointment))))
              st) ;;;
  ret patientId.

(** [findByPatientId(patientId)] *)
Definition findByPatientId (patientId : Id) : M (list Appointment) :=
  all <- gets (fun st => Repository.findAll (appointmentRepository st)) ;;
  filterM
    (fun appointment =>
       v <- assignPatientId appointment patientId ;;
       ret (truthyId v))
    all.

(** ** [DoctorService] *)

(** The object handed to [addDoctor]; a field that is [None] is
    [undefined]. *)
Record DoctorData : Type := mkDoctorData {
  dd_id : Id;
  dd_rcm : option string;
  dd_name : option string;
  dd_specialty : option (list string);
  dd_phoneNumber : option string
}.

(** [new Doctor(id, rcm, name, specialty, phoneNumber)]: an [undefined]
    argument takes its default, and the working hours start empty whatever is
    passed. *)
Definition newDoctor (id : Id) (rcm name : option string)
    (specialty : option (list string)) (phoneNumber : option string) : Doctor :=
  mkDoctor id (default "" rcm) (default "" name) (default [] specialty)
    (default "" phoneNumber) (mkWorkingHours []).

(** An address no repository entry and no appointment holds: where a new
    doctor object is put. *)
Definition freshDoctorRef (st : Store) : loc :=
  S (list_max (map snd (doctorRepository st)
               ++ map (fun entry => a_doctor (snd entry)) (appointmentRepository st))).

(** [new Doctor(...)] as an effect on the store. *)
Definition allocDoctor (d : Doctor) : M loc :=
  fun st =>
    (Ok (freshDoctorRef st),
     withDoctorHeap (heapSet (doctorHeap st) (freshDoctorRef st) d) st).

(** [addDoctor(doctorData)] *)
Definition addDoctor (doctorData : DoctorData) : M loc :=
  doctor <- allocDoctor
              (newDoctor (dd_id doctorData) (dd_rcm doctorData) (dd_name doctorData)
                 (dd_specialty doctorData) (dd_phoneNumber doctorData)) ;;
  d <- readDoctor doctor ;;
  repo <- gets doctorRepository ;;
  repo' <- lift (Repository.add repo (d_id d) doctor) ;;
  modify (withDoctorRepository repo') ;;;
  ret doctor.


(** ** The slot arithmetic of [DoctorWorkingHoursService]

    The working-hours service carries its own, older copy of
    [isTimeWithinSlot]. *)

Module WorkingHoursService.

(** [time.split(/:| /)]: the pieces between every colon and every space. *)
Fixpoint splitColonOrSpace (cur s : string) : list string :=
  match s with
  | EmptyString => [cur]
  | String c r =>
      if (Ascii.eqb c ":" || Ascii.eqb c " ")%bool
      then cur :: splitColonOrSpace EmptyString r
      else splitColonOrSpace (cur +:+ String c EmptyString) r
  end.

(** The inner [timeToMinutes]: the hour gains 12 when the text holds [PM] and
    the hour is not 12; the minutes are added as they are. *)
Definition timeToMinutes (time : option string) : Result Num :=
  match time with
  | None =>
      Throw (TypeError "Cannot read properties of undefined (reading 'split')")
  | Some time =>
      let parts := map Number (splitColonOrSpace EmptyString time) in
      let hours := nth 0 parts NaN in
      let minutes := nth 1 parts NaN in
      let period :=
        if includes time "PM" && negb (strictEq hours (Fin 12))
        then Fin 12 else Fin 0 in
      Ok (add (mul (add hours period) (Fin 60)) minutes)
  end.

(** [isTimeWithinSlot(time, timeSlot)] *)
Definition isTimeWithinSlot (time timeSlot : string) : Result bool :=
  let pieces := split timeSlot " - " in
  let startTime := nth_error pieces 0 in
  let endTime := nth_error pieces 1 in
  match timeToMinutes (Some time) with
  | Throw e => Throw e
  | Ok timeInMinutes =>
      match timeToMinutes startTime with
      | Throw e => Throw e
      | Ok startInMinutes =>
          match timeToMinutes endTime with
          | Throw e => Throw e
          | Ok endInMinutes =>
              Ok (ge timeInMinutes startInMinutes && le timeInMinutes endInMinutes)
          end
      end
  end.

End WorkingHoursService.

(** ** Controllers

    A handler runs a service call inside [try] and answers with a status and
    a JSON body; nothing escapes it. *)

Inductive Body : Type :=
| AvailableBody (available : bool)
| DoctorBody (doctor : Doctor)
| HoursBody (workingHours : list WorkingHour)
| ErrorBody (error : string).

Record Response : Type := mkResponse {
  status : Z;
  body : Body
}.

(** [error.message] *)
Definition message (e : Exn) : string :=
  match e with
  | Error m => m
  | TypeError m => m
  | RangeError m => m
  end.

(** [try { ... res.status(..).json(..) } catch (error) { ... }] *)
Definition tryCatch {A} (m : M A) (respond : A -> Store -> Response)
    (recover : Exn -> Response) (st : Store) : Response * Store :=
  match m st with
  | (Ok a, st') => (respond a st', st')
  | (Throw e, st') => (recover e, st')
  end.

Section Controllers.

Variable getTimezoneOffset : Z -> Z.
Variable DateParse : string -> Num.

(** [DoctorAvailabilityController.checkAvailability]: [doctorId] comes from
    the route parameters and [date] from the query string, where it is a
    string or absent.  The parsed [dateObj] is only checked; the service is
    called with [date] itself. *)
Definition checkAvailability (doctorId : Id) (date : option string)
  : Store -> Response * Store :=
  tryCatch
    (let dateObj := match date with
                    | Some s => mkDate (DateParse s)
                    | None => mkDate NaN
                    end in
     if isNaN (getTime dateObj) then throw (Error "Invalid date format.")
     else
       isDoctorAvailable getTimezoneOffset doctorId
         (match date with Some s => VString s | None => VOther end))
    (fun availability _ => mkResponse 200 (AvailableBody availability))
    (fun error =>
       if String.eqb (message error) "Doctor not found."
       then mkResponse 404 (ErrorBody (message error))
       else mkResponse 500 (ErrorBody "Internal server error.")).

End Controllers.

(** [DoctorWorkingHoursController.addWorkingHours] *)
Definition addWorkingHoursHandler (id : Id) (day_ timeSlot_ : string)
  : Store -> Response * Store :=
  tryCatch (addDoctorWorkingHours id day_ timeSlot_)
    (fun updatedDoctor st => mkResponse 200 (DoctorBody (doctorHeap st updatedDoctor)))
    (fun error =>
       if String.eqb (message error) "Doctor not found."
       then mkResponse 404 (ErrorBody (message error))
       else if String.eqb (message error) "Working hours already exists for this doctor"
       then mkResponse 400 (ErrorBody (message error))
       else mkResponse 500 (ErrorBody "Internal server error.")).

(** [DoctorWorkingHoursController.removeWorkingHours] *)
Definition removeWorkingHoursHandler (id : Id) (day_ timeSlot_ : string)
  : Store -> Response * Store :=
  tryCatch (removeWorkingHours id day_ timeSlot_)
    (fun updatedDoctor st => mkResponse 200 (DoctorBody (doctorHeap st updatedDoctor)))
    (fun error =>
       if String.eqb (message error) "Doctor not found."
       then mkResponse 404 (ErrorBody (message error))
       else mkResponse 400 (ErrorBody (message error))).

(** [DoctorWorkingHoursController.listWorkingHours] *)
Definition listWorkingHoursHandler (id : Id) : Store -> Response * Store :=
  tryCatch (listWorkingHours id)
    (fun workingHours _ => mkResponse 200 (HoursBody workingHours))
    (fun error =>
       if String.eqb (message error) "Doctor not found."
       then mkResponse 404 (ErrorBody (message error))
       else mkResponse 400 (ErrorBody (message error))).

(** ** Well-formed slots *)

(** The slot text from minute [a] to minute [b] of the day, on the [en-US]
    clock: ["09:00 AM - 05:00 PM"] is [slotText 540 1020]. *)
Definition slotText (a b : Z) : string :=
  clock12 a +:+ " - " +:+ clock12 b.

(** A rota entry: a day and the first and last minute of the slot. *)
Definition rotaEntry (entry : string * Z * Z) : WorkingHour :=
  let '(d, a, b) := entry in mkWorkingHour d (slotText a b).

(** ** A small clinic

    Two doctors, one patient and one appointment, used to run the services.
    The host clock is UTC; 2024-07-01 was a Monday. *)

Definition utc (t : Z) : Z := 0.

Definition noParse (s : string) : Num := NaN.

Definition drSmith : Doctor :=
  mkDoctor (Some "101") "CRM12345" "Smith" ["Cardiology"; "General Medicine"]
    "+1122334455"
    (mkWorkingHours [mkWorkingHour "Monday" "09:00 AM - 05:00 PM"]).

Definition drJones : Doctor :=
  mkDoctor (Some "102") "CRM67890" "Jones" ["Neurology"] "+1222333444"
    (mkWorkingHours [mkWorkingHour "Monday" "06:00 AM - 10:00 PM"]).

Definition johnDoe : Patient :=
  mkPatient (Some "1") "123.123.123-12" "John Doe" "+1234567890"
    "john.doe@example.com".

(** 2024-07-01T08:00, 09:00, 10:00, 10:01, 11:00 and 17:00 UTC. *)
Definition monday8 : Date := mkDate (Fin 1719820800000).
Definition monday9 : Date := mkDate (Fin 1719824400000).
Definition monday10 : Date := mkDate (Fin 1719828000000).
Definition monday10_01 : Date := mkDate (Fin 1719828060000).
Definition monday11 : Date := mkDate (Fin 1719831600000).
Definition monday17 : Date := mkDate (Fin 1719853200000).

Definition smithRef : loc := 0%nat.
Definition jonesRef : loc := 1%nat.
Definition johnRef : loc := 0%nat.

(** Dr. Jones sees John Doe on Monday at 10:00. *)
Definition jonesVisit : Appointment :=
  mkAppointment (Some "201") monday10 johnRef jonesRef (Some "Regular Checkup")
    "scheduled" "".

Definition clinicDoctors (l : loc) : Doctor :=
  match l with
  | O => drSmith
  | _ => drJones
  end.

Definition clinic : Store :=
  mkStore clinicDoctors (fun _ => johnDoe)
    [(Some "101", smithRef); (Some "102", jonesRef)]
    [(Some "1", johnRef)]
    [(Some "201", jonesVisit)]
    [].

(** The clinic before any appointment was made. *)
Definition emptyClinic : Store :=
  withAppointmentRepository [] clinic.

(** A request for Dr. Smith on Monday at 10:00 that names no status. *)
Definition smithRequest : AppointmentData :=
  mkAppointmentData (Some "202") (VDate monday10) (Some "1") None (Some "101") None
    (Some "Regular Checkup") None None.

(** A request for a patient nobody registered, with no doctor named. *)
Definition ghostRequest : AppointmentData :=
  mkAppointmentData (Some "203") (VDate monday10) (Some "ghost") None None None
    (Some "Regular Checkup") None None.

(** The same request with a doctor named. *)
Definition ghostRequestForSmith : AppointmentData :=
  mkAppointmentData (Some "203") (VDate monday10) (Some "ghost") None (Some "101")
    None (Some "Regular Checkup") None None.

(** A doctor on a four-entry rota: two days, two slots each. *)
Definition rotaHours : list WorkingHour :=
  [mkWorkingHour "Monday" "09:00 AM - 12:00 PM";
   mkWorkingHour "Monday" "01:00 PM - 05:00 PM";
   mkWorkingHour "Tuesday" "09:00 AM - 12:00 PM";
   mkWorkingHour "Tuesday" "01:00 PM - 05:00 PM"].

Definition rota : Store :=
  withDoctorHeap (fun l => setHours rotaHours (clinicDoctors l)) emptyClinic.

(** Dr. Smith with a Monday slot entered without its end. *)
Definition openEnded : Store :=
  withDoctorHeap
    (fun l => setHours [mkWorkingHour "Monday" "09:00 AM"] (clinicDoctors l))
    emptyClinic.

(** The minutes of a day. *)
Definition minutesOfDay : list Z := map Z.of_nat (seq 0 1440).

(** ** Predicates of the statements *)

(** Two stores that differ at most in the [id] fields of doctor objects. *)
Definition sameButDoctorIds (st st' : Store) : Prop :=
  patientHeap st' = patientHeap st
  /\ doctorRepository st' = doctorRepository st
  /\ patientRepository st' = patientRepository st
  /\ appointmentRepository st' = appointmentRepository st
  /\ console st' = console st
  /\ forall l, setDoctorId None (doctorHeap st' l) = setDoctorId None (doctorHeap st l).

(** Whether some stored appointment, of whichever doctor, sits at the time
    value of [date]. *)
Definition anyAppointmentAt (st : Store) (date : Date) : bool :=
  existsb
    (fun appointment => strictEq (getTime (a_date appointment)) (getTime date))
    (Repository.findAll (appointmentRepository st)).

(** Every slot of the doctor holds the [" - "] separator. *)
Definition slotsSeparated (d : Doctor) : Prop :=
  Forall (fun workingHour => includes (timeSlot workingHour) " - " = true)
    (hours (d_workingHours d)).

(** A value that is a [Date] with a time value. *)
Definition validDate (v : Value) : bool :=
  match v with
  | VDate date => negb (isNaN (getTime date))
  | _ => false
  end.

(** Every time slot of the doctor stored under [doctorId], if there is one,
    holds the separator. *)
Definition storedSlotsSeparated (st : Store) (doctorId : Id) : Prop :=
  forall doctor,
    Repository.findById (doctorRepository st) doctorId = Some doctor ->
    slotsSeparated (doctorHeap st doctor).

(** Whether a rota entry covers minute [m] of the day named [weekday]: same
    day, and [m] from the first to the last minute of the slot, both
    included. *)
Definition entryCovers (weekday : string) (m : Z) (entry : string * Z * Z) : bool :=
  let '(d, a, b) := entry in
  String.eqb d weekday && (a <=? m) && (m <=? b).

(** Every entry of a rota names minutes of the day. *)
Definition rotaInDay (entries : list (string * Z * Z)) : Prop :=
  Forall (fun entry : string * Z * Z =>
            let '(_, a, b) := entry in 0 <= a < 1440 /\ 0 <= b < 1440)
    entries.

(** The minute the working-hours service's own parser reads off the clock
    text of minute [m]: the hour after midnight comes out as the hour after
    noon. *)
Definition midnightAsNoon (m : Z) : Z := if m <? 60 then m + 720 else m.

(** * Properties *)

(** ** Splitting and the slot parser *)

Lemma splitFrom_cons sep skip cur s :
  exists piece rest, splitFrom sep skip cur s = piece :: rest.
Proof.
  revert skip cur.
  induction s as [|c r IH]; intros skip cur; cbn [splitFrom].
  - eauto.
  - destruct skip as [|k]; [|apply IH].
    destruct (String.prefix sep (String c r)); [eauto|apply IH].
Qed.

(** A string that holds the separator splits into at least two pieces. *)
Lemma splitFrom_includes c0 sep' s :
  includes s (String c0 sep') = true ->
  forall cur, exists a b rest, splitFrom (String c0 sep') O cur s = a :: b :: rest.
Proof.
  induction s as [|c r IH]; intros Hinc cur.
  - simpl in Hinc. discriminate.
  - cbn [includes] in Hinc. cbn [splitFrom].
    destruct (String.prefix (String c0 sep') (String c r)) eqn:Hp.
    + destruct (splitFrom_cons (String c0 sep')
                  (Nat.pred (String.length (String c0 sep'))) EmptyString r)
        as (b & rest & ->).
      eauto.
    + simpl in Hinc. apply IH. exact Hinc.
Qed.

Lemma append_String a s t : String a s +:+ t = String a (s +:+ t).
Proof. reflexivity. Qed.

Lemma append_empty_r s : s +:+ EmptyString = s.
Proof.
  induction s as [|a s IH]; [reflexivity|].
  rewrite append_String, IH. reflexivity.
Qed.

Lemma append_cons_assoc cur c r :
  (cur +:+ String c EmptyString) +:+ r = cur +:+ String c r.
Proof.
  induction cur as [|a cur IH]; [reflexivity|].
  rewrite !append_String, IH. reflexivity.
Qed.

(** A string without the separator is its own single piece. *)
Lemma splitFrom_not_includes sep s :
  includes s sep = false ->
  forall cur, splitFrom sep O cur s = [cur +:+ s].
Proof.
  induction s as [|c r IH]; intros Hinc cur.
  - cbn [splitFrom]. rewrite append_empty_r. reflexivity.
  - cbn [includes] in Hinc. apply orb_false_iff in Hinc as [Hp Hr].
    cbn [splitFrom]. rewrite Hp, (IH Hr). f_equal. apply append_cons_assoc.
Qed.

Lemma timeToMinutes_string s : exists n, timeToMinutes (Some s) = Ok n.
Proof. unfold timeToMinutes. eauto. Qed.

Lemma isTimeWithinSlot_separator time slot :
  includes slot " - " = true ->
  exists a b rest startM endM,
    split slot " - " = a :: b :: rest
    /\ timeToMinutes (Some a) = Ok startM
    /\ timeToMinutes (Some b) = Ok endM
    /\ forall timeM, timeToMinutes (Some time) = Ok timeM ->
         isTimeWithinSlot time slot = Ok (ge timeM startM && le timeM endM).
Proof.
  intros Hinc.
  destruct (splitFrom_includes _ _ _ Hinc EmptyString) as (a & b & rest & Hsplit).
  destruct (timeToMinutes_string a) as (startM & Ha).
  destruct (timeToMinutes_string b) as (endM & Hb).
  exists a, b, rest, startM, endM.
  repeat split; try assumption.
  intros timeM Ht. unfold isTimeWithinSlot, split.
  rewrite Hsplit. cbn [nth_error]. rewrite Ht, Ha, Hb. reflexivity.
Qed.

Lemma isTimeWithinSlot_no_separator time slot :
  includes slot " - " = false ->
  isTimeWithinSlot time slot =
    Throw (TypeError "Cannot read properties of undefined (reading 'includes')").
Proof.
  intros Hinc. unfold isTimeWithinSlot, split.
  rewrite (splitFrom_not_includes _ _ Hinc). cbn [nth_error].
  destruct (timeToMinutes_string time) as (n & ->).
  destruct (timeToMinutes_string (EmptyString +:+ slot)) as (m & ->).
  reflexivity.
Qed.

(** With the separator in place the parser always returns. *)
Lemma isTimeWithinSlot_returns time slot :
  includes slot " - " = true -> exists b, isTimeWithinSlot time slot = Ok b.
Proof.
  intros Hinc.
  destruct (isTimeWithinSlot_separator time slot Hinc)
    as (a & b & rest & startM & endM & _ & _ & _ & Hres).
  destruct (timeToMinutes_string time) as (n & Hn).
  rewrite (Hres n Hn). eauto.
Qed.

Lemma ge_NaN_r n : ge n NaN = false.
Proof. destruct n; reflexivity. Qed.

Lemma le_NaN_r n : le n NaN = false.
Proof. destruct n; reflexivity. Qed.

(** The clock text of an invalid date is inside no slot. *)
Lemma isTimeWithinSlot_invalid_date slot :
  isTimeWithinSlot "Invalid Date" slot <> Ok true.
Proof.
  unfold isTimeWithinSlot.
  change (timeToMinutes (Some "Invalid Date")) with (Ok NaN).
  destruct (timeToMinutes _); [|discriminate].
  destruct (timeToMinutes _); discriminate.
Qed.

(** ** Running method bodies *)

Lemma bind_Ok_inv {A B} (m : M A) (k : A -> M B) st b st' :
  bind m k st = (Ok b, st') ->
  exists a st1, m st = (Ok a, st1) /\ k a st1 = (Ok b, st').
Proof.
  unfold bind. destruct (m st) as [[a|e] st1]; intros H.
  - eauto.
  - discriminate.
Qed.

Lemma bind_run {A B} (m : M A) (k : A -> M B) st a st1 :
  m st = (Ok a, st1) -> bind m k st = k a st1.
Proof. unfold bind. intros ->. reflexivity. Qed.

(** ** The conflict scan *)


Lemma sameButDoctorIds_refl st : sameButDoctorIds st st.
Proof. unfold sameButDoctorIds. auto 10. Qed.

Lemma sameButDoctorIds_trans st1 st2 st3 :
  sameButDoctorIds st1 st2 -> sameButDoctorIds st2 st3 -> sameButDoctorIds st1 st3.
Proof.
  unfold sameButDoctorIds.
  intros (? & ? & ? & ? & ? & H12) (? & ? & ? & ? & ? & H23).
  repeat split; [congruence..|].
  intros l. rewrite H23. apply H12.
Qed.

Lemma sameButDoctorIds_hours st st' l :
  sameButDoctorIds st st' ->
  d_workingHours (doctorHeap st' l) = d_workingHours (doctorHeap st l).
Proof.
  intros (_ & _ & _ & _ & _ & H).
  change (d_workingHours (setDoctorId None (doctorHeap st' l))
          = d_workingHours (setDoctorId None (doctorHeap st l))).
  rewrite H. reflexivity.
Qed.

Lemma assignDoctorId_run appointment doctorId st :
  exists st', assignDoctorId appointment doctorId st = (Ok doctorId, st')
              /\ sameButDoctorIds st st'
              /\ d_id (doctorHeap st' (a_doctor appointment)) = doctorId.
Proof.
  eexists. split; [reflexivity|]. split.
  - unfold sameButDoctorIds. cbn. repeat split.
    intros l. unfold heapSet. destruct (decide (l = a_doctor appointment)) as [->|];
      reflexivity.
  - cbn. unfold heapSet. rewrite decide_True by reflexivity. reflexivity.
Qed.

(** The scan keeps every appointment when [doctorId] is truthy and none when
    it is falsy: the callback's value is [doctorId] itself. *)
Lemma filterM_assignDoctorId doctorId l st :
  exists st',
    filterM
      (fun appointment =>
         v <- assignDoctorId appointment doctorId ;; ret (truthyId v)) l st
    = (Ok (if truthyId doctorId then l else []), st')
    /\ sameButDoctorIds st st'.
Proof.
  revert st. induction l as [|a l IH]; intros st.
  - exists st. split; [|apply sameButDoctorIds_refl].
    cbn. destruct (truthyId doctorId); reflexivity.
  - destruct (assignDoctorId_run a doctorId st) as (st1 & Hrun & Hsame1 & _).
    destruct (IH st1) as (st2 & Hrest & Hsame2).
    exists st2. split; [|eapply sameButDoctorIds_trans; eassumption].
    cbn [filterM].
    rewrite (bind_run _ _ st (truthyId doctorId) st1).
    + rewrite (bind_run _ _ _ _ _ Hrest). unfold ret.
      destruct (truthyId doctorId); reflexivity.
    + rewrite (bind_run _ _ _ _ _ Hrun). reflexivity.
Qed.

Lemma findByDoctorId_run doctorId st :
  exists st',
    findByDoctorId doctorId st
    = (Ok (if truthyId doctorId
           then Repository.findAll (appointmentRepository st) else []), st')
    /\ sameButDoctorIds st st'.
Proof.
  unfold findByDoctorId.
  destruct (filterM_assignDoctorId doctorId
              (Repository.findAll (appointmentRepository st)) st)
    as (st' & Hrun & Hsame).
  exists st'. split; [|exact Hsame].
  erewrite bind_run; [exact Hrun|reflexivity].
Qed.


Lemma hasAppointmentConflict_run doctorId date st :
  exists st',
    hasAppointmentConflict doctorId date st
    = (Ok (truthyId doctorId && anyAppointmentAt st date), st')
    /\ sameButDoctorIds st st'.
Proof.
  destruct (findByDoctorId_run doctorId st) as (st' & Hrun & Hsame).
  exists st'. split; [|exact Hsame].
  unfold hasAppointmentConflict. rewrite (bind_run _ _ _ _ _ Hrun).
  unfold ret, anyAppointmentAt. destruct (truthyId doctorId); reflexivity.
Qed.

Lemma anyAppointmentAt_invalid st date :
  getTime date = NaN -> anyAppointmentAt st date = false.
Proof.
  intros Hnan. unfold anyAppointmentAt. rewrite Hnan.
  induction (Repository.findAll (appointmentRepository st)) as [|a l IH];
    [reflexivity|].
  cbn [existsb]. rewrite IH. destruct (getTime (a_date a)); reflexivity.
Qed.

(** ** The working-hours scan *)

Lemma some_returns {A} (f : A -> Result bool) l :
  Forall (fun x => exists b, f x = Ok b) l -> exists b, some f l = Ok b.
Proof.
  induction 1 as [|x l (b & Hx) _ (b' & IH)]; cbn [some].
  - eauto.
  - rewrite Hx. destruct b; eauto.
Qed.

Lemma some_never_true {A} (f : A -> Result bool) l :
  Forall (fun x => f x <> Ok true) l -> some f l <> Ok true.
Proof.
  induction 1 as [|x l Hx _ IH]; cbn [some].
  - discriminate.
  - destruct (f x) as [[|]|e]; [contradiction|exact IH|discriminate].
Qed.

Lemma isWithinWorkingHours_hours tz d d' date :
  d_workingHours d' = d_workingHours d ->
  isWithinWorkingHours tz d' date = isWithinWorkingHours tz d date.
Proof. unfold isWithinWorkingHours. intros ->. reflexivity. Qed.


Lemma isWithinWorkingHours_returns tz d date :
  slotsSeparated d -> exists b, isWithinWorkingHours tz d date = Ok b.
Proof.
  intros Hsep. unfold isWithinWorkingHours. apply some_returns.
  eapply Forall_impl; [exact Hsep|].
  intros workingHour Hinc. cbv beta.
  destruct (String.eqb _ _); [|eauto].
  apply isTimeWithinSlot_returns. exact Hinc.
Qed.

Lemma isWithinWorkingHours_invalid_date tz d date :
  getTime date = NaN -> isWithinWorkingHours tz d date <> Ok true.
Proof.
  intros Hnan. unfold isWithinWorkingHours. apply some_never_true.
  apply Forall_forall. intros workingHour _.
  unfold toLocaleTimeString_hm. rewrite Hnan.
  destruct (String.eqb _ _); [|discriminate].
  apply isTimeWithinSlot_invalid_date.
Qed.

(** ** What [isDoctorAvailable] does, step by step *)

Lemma isDoctorAvailable_absent tz doctorId date st :
  Repository.findById (doctorRepository st) doctorId = None ->
  isDoctorAvailable tz doctorId date st = (Throw (Error "Doctor not found"), st).
Proof.
  intros Habs. unfold isDoctorAvailable, findDoctorById, bind, gets.
  rewrite Habs. reflexivity.
Qed.

Lemma isDoctorAvailable_date tz doctorId date st doctor :
  Repository.findById (doctorRepository st) doctorId = Some doctor ->
  exists st1,
    sameButDoctorIds st st1
    /\ isDoctorAvailable tz doctorId (VDate date) st =
       if truthyId doctorId && anyAppointmentAt st date then
         match toISOString date with
         | Ok iso => (Ok false, withConsole (console st1 ++ [ConflictLine iso]) st1)
         | Throw e => (Throw e, st1)
         end
       else
         match isWithinWorkingHours tz (doctorHeap st doctor) date with
         | Throw e => (Throw e, st1)
         | Ok true => (Ok true, st1)
         | Ok false =>
             match toISOString date with
             | Ok iso =>
                 (Ok false, withConsole (console st1 ++ [OutsideHoursLine iso]) st1)
             | Throw e => (Throw e, st1)
             end
         end.
Proof.
  intros Hfound.
  destruct (hasAppointmentConflict_run doctorId date st) as (st1 & Hrun & Hsame).
  exists st1. split; [exact Hsame|].
  unfold isDoctorAvailable.
  rewrite (bind_run _ _ st (Some doctor) st)
    by (unfold findDoctorById, gets; rewrite Hfound; reflexivity).
  rewrite (bind_run _ _ _ _ _ Hrun).
  destruct (truthyId doctorId && anyAppointmentAt st date).
  - unfold bind, lift, consoleLog, modify, ret.
    destruct (toISOString date); reflexivity.
  - unfold bind, readDoctor, gets, lift, consoleLog, modify, ret.
    rewrite (isWithinWorkingHours_hours tz (doctorHeap st doctor))
      by (apply sameButDoctorIds_hours; exact Hsame).
    destruct (isWithinWorkingHours tz (doctorHeap st doctor) date) as [[|]|e];
      reflexivity.
Qed.


Lemma isDoctorAvailable_invalid_date_throws tz doctorId date st :
  validDate date = false ->
  isThrow (fst (isDoctorAvailable tz doctorId date st)) = true.
Proof.
  intros Hinv.
  destruct (Repository.findById (doctorRepository st) doctorId) as [doctor|] eqn:Hfound.
  2: { rewrite isDoctorAvailable_absent by exact Hfound. reflexivity. }
  destruct date as [date|s|].
  - cbn in Hinv. apply negb_false_iff in Hinv.
    assert (Hnan : getTime date = NaN) by (destruct (getTime date); [reflexivity|discriminate]).
    destruct (isDoctorAvailable_date tz doctorId date st doctor Hfound)
      as (st1 & _ & ->).
    rewrite (anyAppointmentAt_invalid st date Hnan), andb_false_r.
    pose proof (isWithinWorkingHours_invalid_date tz (doctorHeap st doctor) date Hnan)
      as Hnot.
    destruct (isWithinWorkingHours tz (doctorHeap st doctor) date) as [[|]|e];
      [contradiction| |reflexivity].
    unfold toISOString. rewrite Hnan. reflexivity.
  - unfold isDoctorAvailable, findDoctorById, bind, gets. rewrite Hfound. reflexivity.
  - unfold isDoctorAvailable, findDoctorById, bind, gets. rewrite Hfound. reflexivity.
Qed.

Lemma isDoctorAvailable_returns tz doctorId date st doctor :
  Repository.findById (doctorRepository st) doctorId = Some doctor ->
  slotsSeparated (doctorHeap st doctor) ->
  validDate date = true ->
  isThrow (fst (isDoctorAvailable tz doctorId date st)) = false.
Proof.
  intros Hfound Hsep Hvalid.
  destruct date as [date|s|]; try discriminate.
  cbn in Hvalid. apply negb_true_iff in Hvalid.
  destruct (isDoctorAvailable_date tz doctorId date st doctor Hfound)
    as (st1 & _ & ->).
  assert (Hiso : exists iso, toISOString date = Ok iso).
  { unfold toISOString. destruct (getTime date); [discriminate|eauto]. }
  destruct Hiso as (iso & ->).
  destruct (isWithinWorkingHours_returns tz _ date Hsep) as (b & ->).
  destruct (truthyId doctorId && anyAppointmentAt st date); [reflexivity|].
  destruct b; reflexivity.
Qed.

(** ** The conflict check (C1, C2) *)

(** The scan does not look at whose appointment it is: with a truthy
    [doctorId] a conflict is reported exactly when some stored appointment, of
    any doctor, has the requested time value. *)
Lemma hasAppointmentConflict_scans_every_doctor doctorId date st :
  fst (hasAppointmentConflict doctorId date st)
  = Ok (truthyId doctorId && anyAppointmentAt st date).
Proof.
  destruct (hasAppointmentConflict_run doctorId date st) as (st' & -> & _).
  reflexivity.
Qed.

(** C1, run on the clinic: the only stored appointment belongs to Dr. Jones
    (id 102), Dr. Smith (id 101) has none, and yet the conflict step answers
    for Dr. Smith at Monday 10:00 that there is a conflict, and the check
    returns false with the conflict line on the console.  One minute later
    there is none. *)
Theorem conflict_reported_for_another_doctors_appointment :
  map (fun appointment => d_id (doctorHeap clinic (a_doctor appointment)))
    (Repository.findAll (appointmentRepository clinic)) = [Some "102"]
  /\ Repository.findById (doctorRepository clinic) (Some "101") = Some smithRef
  /\ d_id (doctorHeap clinic smithRef) = Some "101"
  /\ fst (hasAppointmentConflict (Some "101") monday10 clinic) = Ok true
  /\ fst (isDoctorAvailable utc (Some "101") (VDate monday10) clinic) = Ok false
  /\ console (snd (isDoctorAvailable utc (Some "101") (VDate monday10) clinic))
     = [ConflictLine 1719828000000]
  /\ fst (hasAppointmentConflict (Some "101") monday10_01 clinic) = Ok false.
Proof. repeat split. Qed.

(** C2, run on the clinic: a check for Dr. Smith on Monday at 11:00 returns
    true and logs nothing, but the appointment stored under 201, which named
    Dr. Jones (id 102) before the call, names a doctor with id 101 after it;
    the object is the one the doctor repository holds under 102. *)
Theorem availability_check_rewrites_stored_doctor_ids :
  fst (isDoctorAvailable utc (Some "101") (VDate monday11) clinic) = Ok true
  /\ console (snd (isDoctorAvailable utc (Some "101") (VDate monday11) clinic)) = []
  /\ Repository.findById (appointmentRepository clinic) (Some "201") = Some jonesVisit
  /\ d_id (doctorHeap clinic (a_doctor jonesVisit)) = Some "102"
  /\ Repository.findById
       (appointmentRepository
          (snd (isDoctorAvailable utc (Some "101") (VDate monday11) clinic)))
       (Some "201") = Some jonesVisit
  /\ d_id (doctorHeap
             (snd (isDoctorAvailable utc (Some "101") (VDate monday11) clinic))
             (a_doctor jonesVisit)) = Some "101"
  /\ Repository.findById
       (doctorRepository
          (snd (isDoctorAvailable utc (Some "101") (VDate monday11) clinic)))
       (Some "102") = Some (a_doctor jonesVisit).
Proof. repeat split. Qed.


(** ** Working hours (C3) *)

(** The clock text of every minute of the day parses back to that minute. *)
Lemma clock12_parses m :
  0 <= m < 1440 -> timeToMinutes (Some (clock12 m)) = Ok (Fin m).
Proof.
  intros Hm.
  assert (Hall : forallb
            (fun m => match timeToMinutes (Some (clock12 m)) with
                      | Ok (Fin n) => n =? m
                      | _ => false
                      end)
            minutesOfDay = true) by (vm_compute; reflexivity).
  rewrite forallb_forall in Hall.
  specialize (Hall m).
  destruct (timeToMinutes (Some (clock12 m))) as [[|n]|e].
  1,3: discriminate Hall;
    unfold minutesOfDay; apply in_map_iff; exists (Z.to_nat m);
    (split; [lia|apply in_seq; lia]).
  f_equal. f_equal. apply Z.eqb_eq. apply Hall.
  unfold minutesOfDay. apply in_map_iff. exists (Z.to_nat m).
  split; [lia|apply in_seq; lia].
Qed.

Lemma localMinutes_range tz t : 0 <= localMinutes tz t < 1440.
Proof. unfold localMinutes. apply Z.mod_pos_bound. lia. Qed.

(** A doctor whose only entry is Monday, 09:00 AM to 05:00 PM, is within
    working hours on a Monday exactly from minute 540 to minute 1020 of the
    local day, both ends included. *)
Lemma isWithinWorkingHours_monday_nine_to_five tz d t :
  hours (d_workingHours d) = [mkWorkingHour "Monday" "09:00 AM - 05:00 PM"] ->
  localDay tz t = 1 ->
  isWithinWorkingHours tz d (mkDate (Fin t))
  = Ok ((540 <=? localMinutes tz t) && (localMinutes tz t <=? 1020)).
Proof.
  intros Hhours Hday. unfold isWithinWorkingHours.
  rewrite Hhours. cbn [some day timeSlot].
  unfold toLocaleDateString_weekday, toLocaleTimeString_hm. cbn [getTime].
  rewrite Hday. cbn [weekdayName].
  change (String.eqb "Monday" "Monday") with true. cbv iota.
  unfold isTimeWithinSlot.
  rewrite (clock12_parses _ (localMinutes_range tz t)).
  change (split "09:00 AM - 05:00 PM" " - ") with ["09:00 AM"; "05:00 PM"].
  cbn [nth_error].
  change (timeToMinutes (Some "09:00 AM")) with (Ok (Fin 540)).
  change (timeToMinutes (Some "05:00 PM")) with (Ok (Fin 1020)).
  cbn [ge le].
  destruct ((540 <=? localMinutes tz t) && (localMinutes tz t <=? 1020)); reflexivity.
Qed.

(** With no stored appointment, of any doctor, at the requested instant, a
    doctor whose working hours are exactly Monday 09:00 AM to 05:00 PM is
    available on a Monday from 09:00 AM to 05:00 PM, both boundary minutes
    included, and at no other minute of that day. *)
Lemma isDoctorAvailable_monday_nine_to_five tz st doctorId doctor t :
  Repository.findById (doctorRepository st) doctorId = Some doctor ->
  hours (d_workingHours (doctorHeap st doctor))
  = [mkWorkingHour "Monday" "09:00 AM - 05:00 PM"] ->
  anyAppointmentAt st (mkDate (Fin t)) = false ->
  localDay tz t = 1 ->
  fst (isDoctorAvailable tz doctorId (VDate (mkDate (Fin t))) st)
  = Ok ((540 <=? localMinutes tz t) && (localMinutes tz t <=? 1020)).
Proof.
  intros Hfound Hhours Hfree Hday.
  destruct (isDoctorAvailable_date tz doctorId (mkDate (Fin t)) st doctor Hfound)
    as (st1 & _ & ->).
  rewrite Hfree, andb_false_r.
  rewrite (isWithinWorkingHours_monday_nine_to_five tz _ t Hhours Hday).
  destruct ((540 <=? localMinutes tz t) && (localMinutes tz t <=? 1020)); reflexivity.
Qed.

Lemma isDoctorAvailable_monday_nine_to_five_example :
  fst (isDoctorAvailable utc (Some "101") (VDate monday10) emptyClinic) = Ok true
  /\ fst (isDoctorAvailable utc (Some "101") (VDate monday8) emptyClinic) = Ok false
  /\ fst (isDoctorAvailable utc (Some "101") (VDate monday9) emptyClinic) = Ok true
  /\ fst (isDoctorAvailable utc (Some "101") (VDate monday17) emptyClinic) = Ok true.
Proof.
  pose proof (fun t => isDoctorAvailable_monday_nine_to_five utc emptyClinic
                         (Some "101") smithRef t eq_refl eq_refl eq_refl) as H.
  exact (conj (H 1719828000000 eq_refl)
           (conj (H 1719820800000 eq_refl)
              (conj (H 1719824400000 eq_refl) (H 1719853200000 eq_refl)))).
Defined.

(** C3, run on the clinic: Dr. Smith's working hours are exactly Monday
    09:00 AM to 05:00 PM and no appointment refers to Dr. Smith, yet the
    Monday 10:00 AM request is refused, because Dr. Jones has a visit at that
    instant.  The 08:00 AM request is refused and the two boundary instants
    are accepted, as the working hours say. *)
Theorem monday_request_refused_for_another_doctors_visit :
  hours (d_workingHours (doctorHeap clinic smithRef))
  = [mkWorkingHour "Monday" "09:00 AM - 05:00 PM"]
  /\ map a_doctor (Repository.findAll (appointmentRepository clinic)) = [jonesRef]
  /\ toLocaleDateString_weekday utc monday10 = "Monday"
  /\ toLocaleTimeString_hm utc monday10 = "10:00 AM"
  /\ fst (isDoctorAvailable utc (Some "101") (VDate monday10) clinic) = Ok false
  /\ fst (isDoctorAvailable utc (Some "101") (VDate monday8) clinic) = Ok false
  /\ fst (isDoctorAvailable utc (Some "101") (VDate monday9) clinic) = Ok true
  /\ fst (isDoctorAvailable utc (Some "101") (VDate monday17) clinic) = Ok true.
Proof. repeat split. Qed.

(** ** The orchestrator (C4, C5) *)

Lemma get_set_same {V} (data : Repository.t V) id entity :
  Repository.get (Repository.set data id entity) id = Some entity.
Proof.
  induction data as [|[k v] r IH]; cbn [Repository.set Repository.get].
  - rewrite decide_True by reflexivity. reflexivity.
  - destruct (decide (k = id)) as [Heq|Hne]; cbn [Repository.get].
    + rewrite decide_True by exact Heq. reflexivity.
    + rewrite decide_False by exact Hne. exact IH.
Qed.

Lemma add_then_findById {V} (data data' : Repository.t V) id entity :
  Repository.add data id entity = Ok data' ->
  Repository.findById data' id = Some entity.
Proof.
  unfold Repository.add, Repository.findById.
  destruct (Repository.has data id); [discriminate|].
  intros [= <-]. apply get_set_same.
Qed.

(** C4, the request that tells the claim from the code: the date is valid
    and the patient id [ghost] is in no repository, but no doctor is named, and
    [execute] raises the missing-id error, not [Patient not found]. *)
Lemma execute_unknown_patient_and_no_doctor_id :
  validDate (requestDate noParse (ad_date ghostRequest)) = true
  /\ requestPatientId ghostRequest = Some "ghost"
  /\ Repository.findById (patientRepository clinic) (Some "ghost") = None
  /\ execute utc noParse ghostRequest clinic
     = (Throw (Error "Patient ID and Doctor ID are required"), clinic).
Proof. repeat split. Qed.

(** C4, as the code has it: for a request whose date is valid and whose
    patient id is not in the patient repository, [execute] raises and leaves
    the whole store as it was, so no appointment is added and nothing is sent.
    The error is [Patient not found] when the request carries a patient id and
    a doctor id, and the missing-id error when one of them is absent or
    empty. *)
Theorem execute_unknown_patient tz parse appointmentData st :
  validDate (requestDate parse (ad_date appointmentData)) = true ->
  Repository.findById (patientRepository st) (requestPatientId appointmentData)
  = None ->
  execute tz parse appointmentData st
  = (Throw
       (Error
          (if truthyId (requestPatientId appointmentData)
              && truthyId (requestDoctorId appointmentData)
           then "Patient not found"
           else "Patient ID and Doctor ID are required")),
     st).
Proof.
  intros Hvalid Hunknown. unfold execute.
  destruct (requestDate parse (ad_date appointmentData)) as [date|s|];
    try discriminate.
  cbn in Hvalid. apply negb_true_iff in Hvalid. rewrite Hvalid.
  cbv zeta.
  destruct (truthyId (requestPatientId appointmentData)); cbn [negb orb andb];
    [|reflexivity].
  destruct (truthyId (requestDoctorId appointmentData)); cbn [negb]; [|reflexivity].
  unfold bind, findPatientById, gets. rewrite Hunknown. reflexivity.
Qed.

Lemma execute_unknown_patient_example :
  execute utc noParse ghostRequestForSmith clinic
  = (Throw (Error "Patient not found"), clinic).
Proof.
  exact (execute_unknown_patient utc noParse ghostRequestForSmith clinic
           eq_refl eq_refl).
Defined.

(** C5: when [execute] returns an appointment, [findById] with its id, run
    on the store [execute] left, returns that very record (same id, date,
    patient reference, doctor reference, reason and status) and changes
    nothing; the record carries the request's id, and its status is
    [scheduled] whenever the request named none. *)
Theorem execute_then_findById tz parse appointmentData st appointment st' :
  execute tz parse appointmentData st = (Ok appointment, st') ->
  findById (a_id appointment) st' = (Ok appointment, st')
  /\ a_id appointment = ad_id appointmentData
  /\ (ad_status appointmentData = None -> a_status appointment = "scheduled").
Proof.
  unfold execute.
  destruct (requestDate parse (ad_date appointmentData)) as [date|s|];
    try discriminate.
  destruct (isNaN (getTime date)); [discriminate|].
  cbv zeta.
  destruct (negb _ || negb _); [discriminate|].
  intros H.
  apply bind_Ok_inv in H as ([patient|] & st1 & _ & H); [|discriminate].
  apply bind_Ok_inv in H as ([doctor|] & st2 & _ & H); [|discriminate].
  apply bind_Ok_inv in H as (available & st3 & _ & H).
  destruct (negb available); [discriminate|].
  apply bind_Ok_inv in H as (repo & st4 & Hrepo & H).
  apply bind_Ok_inv in H as (repo' & st5 & Hadd & H).
  apply bind_Ok_inv in H as ([] & st6 & Hmod & H).
  apply bind_Ok_inv in H as ([] & st7 & Hnotify & H).
  unfold ret in H. injection H as <- <-.
  unfold gets in Hrepo. injection Hrepo as <- <-.
  unfold lift in Hadd. injection Hadd as Hadd <-.
  unfold modify in Hmod. injection Hmod as <-.
  unfold notifyAppointmentScheduled, sendEmailNotification, bind, gets,
    consoleLog, modify in Hnotify.
  injection Hnotify as <-.
  split; [|split].
  - pose proof (add_then_findById _ _ _ _ Hadd) as Hget.
    unfold findById, bind, gets.
    cbn [appointmentRepository withConsole withAppointmentRepository a_id].
    cbn [a_id] in Hget. rewrite Hget. reflexivity.
  - reflexivity.
  - cbn. intros ->. reflexivity.
Qed.

Lemma execute_then_findById_example :
  findById (Some "202") (snd (execute utc noParse smithRequest emptyClinic))
  = (Ok (mkAppointment (Some "202") monday10 johnRef smithRef
           (Some "Regular Checkup") "scheduled" ""),
     snd (execute utc noParse smithRequest emptyClinic))
  /\ Some "202" = ad_id smithRequest
  /\ (ad_status smithRequest = None -> "scheduled" = "scheduled").
Proof.
  exact (execute_then_findById utc noParse smithRequest emptyClinic
           (mkAppointment (Some "202") monday10 johnRef smithRef
              (Some "Regular Checkup") "scheduled" "")
           (snd (execute utc noParse smithRequest emptyClinic)) eq_refl).
Defined.

(** ** Working-hours maintenance (C6, C7, C10) *)

(** C6: for a doctor found in the doctor repository, adding a day and
    time slot that the doctor's working hours already contain raises the
    duplicate error and leaves the store, and so the list, as it was. *)
Theorem addDoctorWorkingHours_duplicate st doctorId doctor day_ timeSlot_ :
  Repository.findById (doctorRepository st) doctorId = Some doctor ->
  In (mkWorkingHour day_ timeSlot_) (hours (d_workingHours (doctorHeap st doctor))) ->
  addDoctorWorkingHours doctorId day_ timeSlot_ st
  = (Throw (Error "Working hours already exists for this doctor"), st).
Proof.
  intros Hfound Hin.
  unfold addDoctorWorkingHours, bind, findDoctorById, readDoctor, gets.
  rewrite Hfound.
  replace (existsb _ _) with true; [reflexivity|].
  symmetry. apply existsb_exists.
  exists (mkWorkingHour day_ timeSlot_). split; [exact Hin|].
  cbn [day timeSlot]. rewrite !String.eqb_refl. reflexivity.
Qed.

Lemma addDoctorWorkingHours_duplicate_example :
  addDoctorWorkingHours (Some "101") "Monday" "09:00 AM - 05:00 PM" clinic
  = (Throw (Error "Working hours already exists for this doctor"), clinic).
Proof.
  exact (addDoctorWorkingHours_duplicate clinic (Some "101") smithRef
           "Monday" "09:00 AM - 05:00 PM" eq_refl (or_introl eq_refl)).
Defined.

(** Adding the same pair twice through the service: the first call adds it,
    the second raises, and the list keeps the length the first call gave
    it. *)
Lemma addDoctorWorkingHours_twice :
  let st1 := snd (addDoctorWorkingHours (Some "101") "Tuesday" "09:00 AM - 05:00 PM" clinic) in
  fst (addDoctorWorkingHours (Some "101") "Tuesday" "09:00 AM - 05:00 PM" clinic)
  = Ok smithRef
  /\ length (hours (d_workingHours (doctorHeap st1 smithRef))) = 2%nat
  /\ addDoctorWorkingHours (Some "101") "Tuesday" "09:00 AM - 05:00 PM" st1
     = (Throw (Error "Working hours already exists for this doctor"), st1).
Proof. repeat split. Qed.

(** What [removeWorkingHours] keeps: the entries that differ from the
    request in the day and in the time slot, both. *)
Lemma removeWorkingHours_keeps st doctorId doctor day_ timeSlot_ :
  Repository.findById (doctorRepository st) doctorId = Some doctor ->
  Repository.has (doctorRepository st) (d_id (doctorHeap st doctor)) = true ->
  let st' := snd (removeWorkingHours doctorId day_ timeSlot_ st) in
  fst (removeWorkingHours doctorId day_ timeSlot_ st) = Ok doctor
  /\ forall hour,
       In hour (hours (d_workingHours (doctorHeap st' doctor)))
       <-> In hour (hours (d_workingHours (doctorHeap st doctor)))
           /\ day hour <> day_ /\ timeSlot hour <> timeSlot_.
Proof.
  intros Hfound Hkey.
  unfold removeWorkingHours, bind, findDoctorById, readDoctor, updateDoctor,
    writeHours, bind, gets, modify, lift, Repository.update.
  rewrite Hfound. cbn [fst snd doctorHeap withDoctorHeap doctorRepository].
  unfold readDoctor, gets.
  cbn [fst snd doctorHeap withDoctorHeap doctorRepository].
  assert (Hid : d_id (heapSet (doctorHeap st) doctor
              (setHours (List.filter (keepsHour day_ timeSlot_)
                    (hours (d_workingHours (doctorHeap st doctor))))
                 (doctorHeap st doctor)) doctor) = d_id (doctorHeap st doctor)).
  { unfold heapSet. rewrite decide_True by reflexivity. reflexivity. }
  rewrite Hid, Hkey.
  cbn [fst snd doctorHeap withDoctorHeap withDoctorRepository ret].
  split; [reflexivity|].
  intros hour. unfold heapSet. rewrite decide_True by reflexivity.
  cbn [d_workingHours setHours hours].
  rewrite filter_In. unfold keepsHour.
  rewrite andb_true_iff, !negb_true_iff, !String.eqb_neq. reflexivity.
Qed.

Lemma removeWorkingHours_keeps_example :
  let st' := snd (removeWorkingHours (Some "101") "Monday" "09:00 AM - 12:00 PM" rota) in
  fst (removeWorkingHours (Some "101") "Monday" "09:00 AM - 12:00 PM" rota)
  = Ok smithRef
  /\ forall hour,
       In hour (hours (d_workingHours (doctorHeap st' smithRef)))
       <-> In hour (hours (d_workingHours (doctorHeap rota smithRef)))
           /\ day hour <> "Monday" /\ timeSlot hour <> "09:00 AM - 12:00 PM".
Proof.
  exact (removeWorkingHours_keeps rota (Some "101") smithRef "Monday"
           "09:00 AM - 12:00 PM" eq_refl eq_refl).
Defined.

(** C7, run on a doctor with two Monday and two Tuesday entries: removing
    Monday morning also removes Monday afternoon (same day, other slot) and
    Tuesday morning (same slot, other day); only Tuesday afternoon is left.
    The value object's [removeHours], which drops the entries matching both
    fields, would leave three. *)
Theorem removeWorkingHours_drops_partial_matches :
  hours (d_workingHours (doctorHeap rota smithRef)) = rotaHours
  /\ fst (removeWorkingHours (Some "101") "Monday" "09:00 AM - 12:00 PM" rota)
     = Ok smithRef
  /\ hours (d_workingHours
              (doctorHeap
                 (snd (removeWorkingHours (Some "101") "Monday"
                         "09:00 AM - 12:00 PM" rota))
                 smithRef))
     = [mkWorkingHour "Tuesday" "01:00 PM - 05:00 PM"]
  /\ hours (removeHours "Monday" "09:00 AM - 12:00 PM" (mkWorkingHours rotaHours))
     = [mkWorkingHour "Monday" "01:00 PM - 05:00 PM";
        mkWorkingHour "Tuesday" "09:00 AM - 12:00 PM";
        mkWorkingHour "Tuesday" "01:00 PM - 05:00 PM"].
Proof. repeat split. Qed.

(** C10: for every doctor id found in the doctor repository,
    [listWorkingHours] raises a [TypeError], the one for calling [hours],
    which is an array; it returns no list and leaves the store as it was. *)
Theorem listWorkingHours_raises st doctorId doctor :
  Repository.findById (doctorRepository st) doctorId = Some doctor ->
  listWorkingHours doctorId st
  = (Throw (TypeError "doctor.workingHours.hours is not a function"), st).
Proof.
  intros Hfound.
  unfold listWorkingHours, bind, findDoctorById, readDoctor, gets, lift.
  rewrite Hfound. reflexivity.
Qed.

Lemma listWorkingHours_raises_example :
  listWorkingHours (Some "101") clinic
  = (Throw (TypeError "doctor.workingHours.hours is not a function"), clinic).
Proof. exact (listWorkingHours_raises clinic (Some "101") smithRef eq_refl). Defined.

(** ** When the availability check raises (C8) *)

(** C8, the input that tells the claim from the code: Dr. Smith is in the
    doctor repository and Monday 10:00 is a valid date, but a Monday slot was
    entered without its second half, and the check raises a [TypeError]. *)
Lemma isDoctorAvailable_raises_on_open_ended_slot :
  Repository.findById (doctorRepository openEnded) (Some "101") = Some smithRef
  /\ hours (d_workingHours (doctorHeap openEnded smithRef))
     = [mkWorkingHour "Monday" "09:00 AM"]
  /\ validDate (VDate monday10) = true
  /\ fst (isDoctorAvailable utc (Some "101") (VDate monday10) openEnded)
     = Throw (TypeError "Cannot read properties of undefined (reading 'includes')").
Proof. repeat split. Qed.

(** C8, as the code has it: [isDoctorAvailable] raises whenever the doctor
    id is not in the doctor repository or the date is no valid date value (a
    value that is no [Date] by the explicit guard, a [Date] whose time is
    [NaN] when the rejection line asks for its ISO text); and when every time
    slot of the stored doctor holds the [" - "] separator, it raises in these
    two cases only. *)
Theorem isDoctorAvailable_raises tz doctorId date st :
  (Repository.findById (doctorRepository st) doctorId = None
   \/ validDate date = false ->
   isThrow (fst (isDoctorAvailable tz doctorId date st)) = true)
  /\ (storedSlotsSeparated st doctorId ->
      isThrow (fst (isDoctorAvailable tz doctorId date st)) = true ->
      Repository.findById (doctorRepository st) doctorId = None
      \/ validDate date = false).
Proof.
  split.
  - intros [Habsent|Hinvalid].
    + rewrite isDoctorAvailable_absent by exact Habsent. reflexivity.
    + apply isDoctorAvailable_invalid_date_throws. exact Hinvalid.
  - intros Hsep Hthrow.
    destruct (Repository.findById (doctorRepository st) doctorId)
      as [doctor|] eqn:Hfound; [|left; reflexivity].
    right. destruct (validDate date) eqn:Hvalid; [|reflexivity].
    rewrite (isDoctorAvailable_returns tz doctorId date st doctor Hfound
               (Hsep doctor Hfound) Hvalid) in Hthrow.
    discriminate.
Qed.

Lemma storedSlotsSeparated_clinic doctorId : storedSlotsSeparated clinic doctorId.
Proof.
  intros doctor _. unfold slotsSeparated.
  destruct doctor as [|doctor]; repeat constructor.
Qed.

Lemma isDoctorAvailable_raises_example :
  fst (isDoctorAvailable utc (Some "101") (VDate (mkDate NaN)) clinic)
  = Throw (RangeError "Invalid time value")
  /\ isThrow (fst (isDoctorAvailable utc (Some "101") (VDate (mkDate NaN)) clinic))
     = true
  /\ (Repository.findById (doctorRepository clinic) (Some "404") = None
      \/ validDate (VString "2024-07-01T10:00:00Z") = false).
Proof.
  exact (conj eq_refl
           (conj (proj1 (isDoctorAvailable_raises utc (Some "101")
                           (VDate (mkDate NaN)) clinic)
                    (or_intror eq_refl))
              (proj2 (isDoctorAvailable_raises utc (Some "404")
                        (VString "2024-07-01T10:00:00Z") clinic)
                 (storedSlotsSeparated_clinic (Some "404")) eq_refl))).
Defined.

(** ** Malformed time slots (C9) *)

(** C9, the input that tells the claim from the code: a time slot without
    the [" - "] separator does not misparse in silence, it raises. *)
Lemma isTimeWithinSlot_raises_without_separator :
  includes "09:00 AM" " - " = false
  /\ isTimeWithinSlot "10:00 AM" "09:00 AM"
     = Throw (TypeError "Cannot read properties of undefined (reading 'includes')").
Proof. repeat split. Qed.

(** C9, as the code has it: on every time slot that holds the [" - "]
    separator, well formed or not, [isTimeWithinSlot] returns and never
    raises.  Its answer is the comparison
    [timeInMinutes >= startInMinutes && timeInMinutes <= endInMinutes] of the
    minutes parsed from the time and from the first two pieces of the slot:
    with three finite values that is [startInMinutes <= timeInMinutes <=
    endInMinutes], both ends included, and when either piece parses to [NaN]
    (its hour text is no number) it is false.  On every time slot without
    the separator it raises a [TypeError]. *)
Theorem isTimeWithinSlot_malformed time slot :
  (includes slot " - " = true ->
   exists startTime endTime rest timeInMinutes startInMinutes endInMinutes,
     split slot " - " = startTime :: endTime :: rest
     /\ timeToMinutes (Some time) = Ok timeInMinutes
     /\ timeToMinutes (Some startTime) = Ok startInMinutes
     /\ timeToMinutes (Some endTime) = Ok endInMinutes
     /\ isTimeWithinSlot time slot
        = Ok (ge timeInMinutes startInMinutes && le timeInMinutes endInMinutes)
     /\ (forall t s e,
           timeInMinutes = Fin t -> startInMinutes = Fin s ->
           endInMinutes = Fin e ->
           isTimeWithinSlot time slot = Ok ((s <=? t) && (t <=? e)))
     /\ (startInMinutes = NaN \/ endInMinutes = NaN ->
         isTimeWithinSlot time slot = Ok false))
  /\ (includes slot " - " = false ->
      isTimeWithinSlot time slot
      = Throw (TypeError "Cannot read properties of undefined (reading 'includes')")).
Proof.
  split; [|apply isTimeWithinSlot_no_separator].
  intros Hinc.
  destruct (isTimeWithinSlot_separator time slot Hinc)
    as (a & b & rest & startM & endM & Hsplit & Ha & Hb & Hres).
  destruct (timeToMinutes_string time) as (timeM & Ht).
  specialize (Hres timeM Ht).
  exists a, b, rest, timeM, startM, endM.
  split; [exact Hsplit|]. split; [exact Ht|].
  split; [exact Ha|]. split; [exact Hb|].
  split; [exact Hres|]. split.
  - intros t s e -> -> ->. exact Hres.
  - intros [-> | ->]; rewrite Hres.
    + rewrite ge_NaN_r. reflexivity.
    + rewrite le_NaN_r, andb_false_r. reflexivity.
Qed.

Lemma isTimeWithinSlot_malformed_example :
  (exists startTime endTime rest timeInMinutes startInMinutes endInMinutes,
     split "nine - five" " - " = startTime :: endTime :: rest
     /\ timeToMinutes (Some "10:00 AM") = Ok timeInMinutes
     /\ timeToMinutes (Some startTime) = Ok startInMinutes
     /\ timeToMinutes (Some endTime) = Ok endInMinutes
     /\ isTimeWithinSlot "10:00 AM" "nine - five"
        = Ok (ge timeInMinutes startInMinutes && le timeInMinutes endInMinutes)
     /\ (forall t s e,
           timeInMinutes = Fin t -> startInMinutes = Fin s ->
           endInMinutes = Fin e ->
           isTimeWithinSlot "10:00 AM" "nine - five"
           = Ok ((s <=? t) && (t <=? e)))
     /\ (startInMinutes = NaN \/ endInMinutes = NaN ->
         isTimeWithinSlot "10:00 AM" "nine - five" = Ok false))
  /\ isTimeWithinSlot "10:00 AM" "0900-1700"
     = Throw (TypeError "Cannot read properties of undefined (reading 'includes')").
Proof.
  exact (conj (proj1 (isTimeWithinSlot_malformed "10:00 AM" "nine - five") eq_refl)
           (proj2 (isTimeWithinSlot_malformed "10:00 AM" "0900-1700") eq_refl)).
Defined.

(** What the parser makes of some malformed slots that hold the separator:
    non-numeric text compares false, and a slot without AM or PM is read on
    the 24-hour clock. *)
Lemma slot_parser_on_malformed_text :
  isTimeWithinSlot "10:00 AM" "nine - five" = Ok false
  /\ isTimeWithinSlot "10:00 AM" "xx:yy AM - 05:00 PM" = Ok false
  /\ isTimeWithinSlot "10:00 AM" "9 - 17" = Ok true.
Proof. repeat split. Qed.

(** ** The repository scans by doctor and by patient *)

Lemma filterM_assignDoctorId_heap doctorId l st :
  let st' := snd (filterM
                    (fun appointment =>
                       v <- assignDoctorId appointment doctorId ;; ret (truthyId v))
                    l st) in
  (forall appointment, In appointment l ->
     d_id (doctorHeap st' (a_doctor appointment)) = doctorId)
  /\ (forall ref, ~ In ref (map a_doctor l) -> doctorHeap st' ref = doctorHeap st ref).
Proof.
  cbv zeta. revert st. induction l as [|a l IH]; intros st.
  - split; [intros ? []|reflexivity].
  - destruct (assignDoctorId_run a doctorId st) as (st1 & Hrun & _ & Hid).
    destruct (filterM_assignDoctorId doctorId l st1) as (st2 & Hrest & _).
    destruct (IH st1) as (IHin & IHout). rewrite Hrest in IHin, IHout.
    cbn [snd] in IHin, IHout.
    assert (Hstep : snd (filterM
                           (fun appointment =>
                              v <- assignDoctorId appointment doctorId ;;
                              ret (truthyId v)) (a :: l) st) = st2).
    { cbn [filterM].
      rewrite (bind_run _ _ st (truthyId doctorId) st1)
        by (rewrite (bind_run _ _ _ _ _ Hrun); reflexivity).
      rewrite (bind_run _ _ _ _ _ Hrest). reflexivity. }
    rewrite Hstep. split.
    + intros appointment [<-|Hin]; [|apply IHin; exact Hin].
      destruct (in_dec Nat.eq_dec (a_doctor a) (map a_doctor l)) as [Hmem|Hnot].
      * apply in_map_iff in Hmem as (a' & Heq & Hin'). rewrite <- Heq.
        apply IHin. exact Hin'.
      * rewrite (IHout _ Hnot). exact Hid.
    + intros ref Hnot. cbn [map] in Hnot.
      rewrite IHout by (intros Hin; apply Hnot; right; exact Hin).
      assert (Hne : ref <> a_doctor a) by (intros ->; apply Hnot; left; reflexivity).
      unfold assignDoctorId, bind, modify, ret in Hrun. injection Hrun as <-.
      cbn [doctorHeap withDoctorHeap]. unfold heapSet.
      rewrite decide_False by exact Hne. reflexivity.
Qed.

(** [findByDoctorId] for any id: it returns every stored appointment when
    the id is truthy and none when it is falsy; afterwards the doctor of every
    stored appointment carries the id asked for, whatever it carried before;
    doctor objects no appointment refers to are untouched, and so is
    everything in the store but doctor ids. *)
Theorem findByDoctorId_rewrites_every_doctor doctorId st :
  fst (findByDoctorId doctorId st)
  = Ok (if truthyId doctorId
        then Repository.findAll (appointmentRepository st) else [])
  /\ (forall appointment,
        In appointment (Repository.findAll (appointmentRepository st)) ->
        d_id (doctorHeap (snd (findByDoctorId doctorId st)) (a_doctor appointment))
        = doctorId)
  /\ (forall ref,
        ~ In ref (map a_doctor (Repository.findAll (appointmentRepository st))) ->
        doctorHeap (snd (findByDoctorId doctorId st)) ref = doctorHeap st ref)
  /\ sameButDoctorIds st (snd (findByDoctorId doctorId st)).
Proof.
  destruct (findByDoctorId_run doctorId st) as (st' & Hrun & Hsame).
  pose proof (filterM_assignDoctorId_heap doctorId
                (Repository.findAll (appointmentRepository st)) st) as Hheap.
  cbv zeta in Hheap.
  assert (Hsnd : snd (findByDoctorId doctorId st)
                 = snd (filterM
                          (fun appointment =>
                             v <- assignDoctorId appointment doctorId ;;
                             ret (truthyId v))
                          (Repository.findAll (appointmentRepository st)) st)).
  { unfold findByDoctorId. erewrite bind_run; reflexivity. }
  rewrite Hsnd. destruct Hheap as (Hin & Hout).
  rewrite <- Hsnd, Hrun. cbn [fst snd].
  rewrite <- Hsnd, Hrun in Hin, Hout. cbn [snd] in Hin, Hout.
  split; [reflexivity|]. split; [exact Hin|]. split; [exact Hout|exact Hsame].
Qed.

Lemma assignPatientId_run appointment patientId st :
  exists st', assignPatientId appointment patientId st = (Ok patientId, st')
              /\ doctorHeap st' = doctorHeap st
              /\ doctorRepository st' = doctorRepository st
              /\ patientRepository st' = patientRepository st
              /\ appointmentRepository st' = appointmentRepository st
              /\ console st' = console st
              /\ patientHeap st'
                 = heapSet (patientHeap st) (a_patient appointment)
                     (setPatientId patientId (patientHeap st (a_patient appointment))).
Proof. eexists. repeat split. Qed.

Lemma filterM_assignPatientId patientId l st :
  exists st',
    filterM
      (fun appointment =>
         v <- assignPatientId appointment patientId ;; ret (truthyId v)) l st
    = (Ok (if truthyId patientId then l else []), st')
    /\ doctorHeap st' = doctorHeap st
    /\ doctorRepository st' = doctorRepository st
    /\ patientRepository st' = patientRepository st
    /\ appointmentRepository st' = appointmentRepository st
    /\ console st' = console st
    /\ (forall appointment, In appointment l ->
          p_id (patientHeap st' (a_patient appointment)) = patientId)
    /\ (forall ref, setPatientId None (patientHeap st' ref)
                    = setPatientId None (patientHeap st ref))
    /\ (forall ref, ~ In ref (map a_patient l) -> patientHeap st' ref = patientHeap st ref).
Proof.
  revert st. induction l as [|a l IH]; intros st.
  - exists st. repeat split; try (intros ? []).
    cbn. destruct (truthyId patientId); reflexivity.
  - destruct (assignPatientId_run a patientId st)
      as (st1 & Hrun & Hd1 & Hdr1 & Hpr1 & Ha1 & Hc1 & Hheap1).
    destruct (IH st1)
      as (st2 & Hrest & Hd2 & Hdr2 & Hpr2 & Ha2 & Hc2 & Hin2 & Hsame2 & Hout2).
    exists st2.
    assert (Hat : p_id (patientHeap st1 (a_patient a)) = patientId).
    { rewrite Hheap1. unfold heapSet. rewrite decide_True by reflexivity. reflexivity. }
    repeat split; try congruence.
    + cbn [filterM].
      rewrite (bind_run _ _ st (truthyId patientId) st1)
        by (rewrite (bind_run _ _ _ _ _ Hrun); reflexivity).
      rewrite (bind_run _ _ _ _ _ Hrest). unfold ret.
      destruct (truthyId patientId); reflexivity.
    + intros appointment [<-|Hin]; [|apply Hin2; exact Hin].
      destruct (in_dec Nat.eq_dec (a_patient a) (map a_patient l)) as [Hmem|Hnot].
      * apply in_map_iff in Hmem as (a' & Heq & Hin'). rewrite <- Heq.
        apply Hin2. exact Hin'.
      * rewrite (Hout2 _ Hnot). exact Hat.
    + intros ref. rewrite Hsame2, Hheap1. unfold heapSet.
      destruct (decide (ref = a_patient a)) as [->|]; reflexivity.
    + intros ref Hnot. cbn [map] in Hnot.
      rewrite Hout2 by (intros Hin; apply Hnot; right; exact Hin).
      rewrite Hheap1. unfold heapSet.
      rewrite decide_False; [reflexivity|].
      intros ->. apply Hnot. left. reflexivity.
Qed.

(** [findByPatientId] makes the same assignment on the patient side: for a
    truthy id it returns every stored appointment, whoever the patient is,
    and for a falsy id none; afterwards the patient of every stored
    appointment carries the id asked for.  Nothing else in the store changes:
    the repositories, the doctors, the console and every other field of a
    patient stay as they were. *)
Theorem findByPatientId_rewrites_every_patient patientId st :
  fst (findByPatientId patientId st)
  = Ok (if truthyId patientId
        then Repository.findAll (appointmentRepository st) else [])
  /\ (forall appointment,
        In appointment (Repository.findAll (appointmentRepository st)) ->
        p_id (patientHeap (snd (findByPatientId patientId st)) (a_patient appointment))
        = patientId)
  /\ (forall ref,
        setPatientId None (patientHeap (snd (findByPatientId patientId st)) ref)
        = setPatientId None (patientHeap st ref))
  /\ doctorHeap (snd (findByPatientId patientId st)) = doctorHeap st
  /\ doctorRepository (snd (findByPatientId patientId st)) = doctorRepository st
  /\ patientRepository (snd (findByPatientId patientId st)) = patientRepository st
  /\ appointmentRepository (snd (findByPatientId patientId st))
     = appointmentRepository st
  /\ console (snd (findByPatientId patientId st)) = console st.
Proof.
  destruct (filterM_assignPatientId patientId
              (Repository.findAll (appointmentRepository st)) st)
    as (st' & Hrun & Hd & Hdr & Hpr & Ha & Hc & Hin & Hsame & _).
  assert (Heq : findByPatientId patientId st
                = (Ok (if truthyId patientId
                       then Repository.findAll (appointmentRepository st) else []),
                   st')).
  { unfold findByPatientId. erewrite bind_run; [exact Hrun|reflexivity]. }
  rewrite Heq. cbn [fst snd]. repeat split; assumption.
Qed.

(** ** The orchestrator, path by path *)

Lemma set_absent {V} (data : Repository.t V) id entity :
  Repository.get data id = None ->
  Repository.set data id entity = (data ++ [(id, entity)])%list.
Proof.
  induction data as [|[k v] r IH]; cbn [Repository.get Repository.set app];
    [reflexivity|].
  destruct (decide (k = id)); [discriminate|].
  intros Hr. rewrite (IH Hr). reflexivity.
Qed.

Lemma add_absent {V} (data data' : Repository.t V) id entity :
  Repository.add data id entity = Ok data' ->
  Repository.get data id = None /\ data' = (data ++ [(id, entity)])%list.
Proof.
  unfold Repository.add, Repository.has.
  destruct (Repository.get data id) eqn:Hget; [discriminate|].
  intros [= <-]. split; [reflexivity|]. apply set_absent. exact Hget.
Qed.

(** The outcome of the availability check and what it leaves behind, in
    one place. *)
Lemma isDoctorAvailable_effects tz doctorId date st :
  sameButDoctorIds st
    (withConsole (console st) (snd (isDoctorAvailable tz doctorId date st)))
  /\ exists lines,
       console (snd (isDoctorAvailable tz doctorId date st)) = (console st ++ lines)%list
       /\ match fst (isDoctorAvailable tz doctorId date st) with
          | Ok false =>
              exists iso, lines = [ConflictLine iso] \/ lines = [OutsideHoursLine iso]
          | _ => lines = []
          end.
Proof.
  destruct (Repository.findById (doctorRepository st) doctorId) as [doctor|] eqn:Hfound.
  2: { rewrite isDoctorAvailable_absent by exact Hfound. cbn [fst snd].
       split; [unfold sameButDoctorIds; cbn; auto 10|].
       exists []. rewrite app_nil_r. split; reflexivity. }
  destruct date as [date|s|].
  2,3: unfold isDoctorAvailable, findDoctorById, bind, gets; rewrite Hfound;
       cbn [fst snd]; (split; [unfold sameButDoctorIds; cbn; auto 10|]);
       exists []; rewrite app_nil_r; split; reflexivity.
  destruct (isDoctorAvailable_date tz doctorId date st doctor Hfound)
    as (st1 & Hsame & ->).
  pose proof Hsame as (Hp & Hd & Hpr & Ha & Hc & Hh).
  assert (Hquiet : sameButDoctorIds st (withConsole (console st) st1)
                   /\ exists lines, console st1 = (console st ++ lines)%list /\ lines = []).
  { split; [unfold sameButDoctorIds; cbn; auto 10|].
    exists []. rewrite app_nil_r. split; [exact Hc|reflexivity]. }
  assert (Hloud : forall line,
            sameButDoctorIds st
              (withConsole (console st) (withConsole (console st1 ++ [line]) st1))
            /\ console (withConsole (console st1 ++ [line]) st1) = (console st ++ [line])%list).
  { intros line. split; [unfold sameButDoctorIds; cbn; auto 10|].
    cbn. rewrite Hc. reflexivity. }
  destruct (truthyId doctorId && anyAppointmentAt st date).
  - destruct (toISOString date) as [iso|e]; cbn [fst snd].
    + destruct (Hloud (ConflictLine iso)) as (H1 & H2). split; [exact H1|].
      exists [ConflictLine iso]. split; [exact H2|]. exists iso. left. reflexivity.
    + destruct Hquiet as (H1 & lines & H2 & ->). split; [exact H1|]. eauto.
  - destruct (isWithinWorkingHours tz (doctorHeap st doctor) date) as [[|]|e];
      cbn [fst snd].
    + destruct Hquiet as (H1 & lines & H2 & ->). split; [exact H1|]. eauto.
    + destruct (toISOString date) as [iso|e]; cbn [fst snd].
      * destruct (Hloud (OutsideHoursLine iso)) as (H1 & H2). split; [exact H1|].
        exists [OutsideHoursLine iso]. split; [exact H2|]. exists iso. right. reflexivity.
      * destruct Hquiet as (H1 & lines & H2 & ->). split; [exact H1|]. eauto.
    + destruct Hquiet as (H1 & lines & H2 & ->). split; [exact H1|]. eauto.
Qed.

(** Everything a successful [execute] went through. *)
Lemma execute_Ok_inv tz parse appointmentData st appointment st' :
  execute tz parse appointmentData st = (Ok appointment, st') ->
  exists date patient doctor st1 repo',
    requestDate parse (ad_date appointmentData) = VDate date
    /\ isNaN (getTime date) = false
    /\ truthyId (requestPatientId appointmentData) = true
    /\ truthyId (requestDoctorId appointmentData) = true
    /\ Repository.findById (patientRepository st) (requestPatientId appointmentData)
       = Some patient
    /\ Repository.findById (doctorRepository st) (requestDoctorId appointmentData)
       = Some doctor
    /\ isDoctorAvailable tz (requestDoctorId appointmentData) (VDate date) st
       = (Ok true, st1)
    /\ appointment
       = mkAppointment (ad_id appointmentData) date patient doctor
           (ad_reason appointmentData)
           (orString (ad_status appointmentData) "scheduled")
           (orString (ad_observations appointmentData) "")
    /\ Repository.add (appointmentRepository st1) (ad_id appointmentData) appointment
       = Ok repo'
    /\ st' = withConsole
               (console st1
                ++ [EmailLine (p_email (patientHeap st1 patient))
                      (d_name (doctorHeap st1 doctor)) date])
               (withAppointmentRepository repo' st1).
Proof.
  unfold execute.
  destruct (requestDate parse (ad_date appointmentData)) as [date|s|];
    try discriminate.
  destruct (isNaN (getTime date)) eqn:Hnan; [discriminate|].
  cbv zeta.
  destruct (truthyId (requestPatientId appointmentData)) eqn:Hpid;
    [|discriminate].
  destruct (truthyId (requestDoctorId appointmentData)) eqn:Hdid;
    [|discriminate].
  cbn [negb orb]. intros H.
  apply bind_Ok_inv in H as ([patient|] & st0 & Hpatient & H); [|discriminate].
  unfold findPatientById, gets in Hpatient. injection Hpatient as Hpatient <-.
  apply bind_Ok_inv in H as ([doctor|] & st0 & Hdoctor & H); [|discriminate].
  unfold findDoctorById, gets in Hdoctor. injection Hdoctor as Hdoctor <-.
  apply bind_Ok_inv in H as (available & st1 & Havail & H).
  destruct available; [|discriminate]. cbn [negb] in H.
  apply bind_Ok_inv in H as (repo & st4 & Hrepo & H).
  apply bind_Ok_inv in H as (repo' & st5 & Hadd & H).
  apply bind_Ok_inv in H as ([] & st6 & Hmod & H).
  apply bind_Ok_inv in H as ([] & st7 & Hnotify & H).
  unfold ret in H. injection H as <- <-.
  unfold gets in Hrepo. injection Hrepo as <- <-.
  unfold lift in Hadd. injection Hadd as Hadd <-.
  unfold modify in Hmod. injection Hmod as <-.
  unfold notifyAppointmentScheduled, sendEmailNotification, bind, gets,
    consoleLog, modify in Hnotify.
  injection Hnotify as <-.
  exists date, patient, doctor, st1, repo'.
  repeat split; assumption.
Qed.

Lemma sameButDoctorIds_name st st' l :
  sameButDoctorIds st st' -> d_name (doctorHeap st' l) = d_name (doctorHeap st l).
Proof.
  intros (_ & _ & _ & _ & _ & H).
  change (d_name (setDoctorId None (doctorHeap st' l))
          = d_name (setDoctorId None (doctorHeap st l))).
  rewrite H. reflexivity.
Qed.

Lemma isDoctorAvailable_conflict tz doctorId date st doctor :
  Repository.findById (doctorRepository st) doctorId = Some doctor ->
  truthyId doctorId = true ->
  anyAppointmentAt st date = true ->
  isNaN (getTime date) = false ->
  exists st2, isDoctorAvailable tz doctorId (VDate date) st = (Ok false, st2).
Proof.
  intros Hfound Htruthy Hbusy Hvalid.
  destruct (isDoctorAvailable_date tz doctorId date st doctor Hfound)
    as (st1 & _ & ->).
  rewrite Htruthy, Hbusy. cbn [andb].
  unfold toISOString. destruct (getTime date); [discriminate|]. eauto.
Qed.

(** [execute], the path that books: for a request with a valid date and
    both ids, whose patient and doctor are stored, when no stored appointment
    sits at the instant, the instant is within the doctor's working hours and
    the appointment id is not taken, [execute] returns the record it built,
    appends it to the appointment store as the last entry, and sends exactly
    one email, to the patient's address and naming the doctor.  The doctor and
    patient repositories and the patients are as before. *)
Theorem execute_schedules tz parse appointmentData st date patient doctor :
  requestDate parse (ad_date appointmentData) = VDate date ->
  isNaN (getTime date) = false ->
  truthyId (requestPatientId appointmentData) = true ->
  truthyId (requestDoctorId appointmentData) = true ->
  Repository.findById (patientRepository st) (requestPatientId appointmentData)
  = Some patient ->
  Repository.findById (doctorRepository st) (requestDoctorId appointmentData)
  = Some doctor ->
  anyAppointmentAt st date = false ->
  isWithinWorkingHours tz (doctorHeap st doctor) date = Ok true ->
  Repository.findById (appointmentRepository st) (ad_id appointmentData) = None ->
  let appointment :=
    mkAppointment (ad_id appointmentData) date patient doctor
      (ad_reason appointmentData)
      (orString (ad_status appointmentData) "scheduled")
      (orString (ad_observations appointmentData) "") in
  let st' := snd (execute tz parse appointmentData st) in
  fst (execute tz parse appointmentData st) = Ok appointment
  /\ appointmentRepository st'
     = (appointmentRepository st ++ [(ad_id appointmentData, appointment)])%list
  /\ console st'
     = (console st
        ++ [EmailLine (p_email (patientHeap st patient))
              (d_name (doctorHeap st doctor)) date])%list
  /\ doctorRepository st' = doctorRepository st
  /\ patientRepository st' = patientRepository st
  /\ patientHeap st' = patientHeap st.
Proof.
  intros Hdate Hvalid Hpid Hdid Hpatient Hdoctor Hfree Hwithin Hid. cbv zeta.
  destruct (isDoctorAvailable_date tz (requestDoctorId appointmentData) date st
              doctor Hdoctor) as (st1 & Hsame & Havail).
  rewrite Hfree, andb_false_r, Hwithin in Havail.
  pose proof Hsame as (Hp & Hd & Hpr & Ha & Hc & _).
  assert (Hrun : execute tz parse appointmentData st
            = (Ok (mkAppointment (ad_id appointmentData) date patient doctor
                     (ad_reason appointmentData)
                     (orString (ad_status appointmentData) "scheduled")
                     (orString (ad_observations appointmentData) "")),
               withConsole
                 (console st1
                  ++ [EmailLine (p_email (patientHeap st1 patient))
                        (d_name (doctorHeap st1 doctor)) date])
                 (withAppointmentRepository
                    (Repository.set (appointmentRepository st1)
                       (ad_id appointmentData)
                       (mkAppointment (ad_id appointmentData) date patient doctor
                          (ad_reason appointmentData)
                          (orString (ad_status appointmentData) "scheduled")
                          (orString (ad_observations appointmentData) "")))
                    st1))).
  { unfold execute. rewrite Hdate, Hvalid. cbv zeta. rewrite Hpid, Hdid.
    cbn [negb orb].
    rewrite (bind_run _ _ st (Some patient) st)
      by (unfold findPatientById, gets; rewrite Hpatient; reflexivity).
    rewrite (bind_run _ _ st (Some doctor) st)
      by (unfold findDoctorById, gets; rewrite Hdoctor; reflexivity).
    rewrite (bind_run _ _ _ _ _ Havail). cbn [negb].
    unfold bind, gets, lift, modify, notifyAppointmentScheduled,
      sendEmailNotification, consoleLog, modify, ret, Repository.add,
      Repository.has.
    cbn [a_id]. rewrite Ha.
    unfold Repository.findById in Hid. rewrite Hid. reflexivity. }
  rewrite Hrun. cbn [fst snd appointmentRepository console doctorRepository
                       patientRepository patientHeap withConsole
                       withAppointmentRepository].
  rewrite Ha, Hc, Hp, (sameButDoctorIds_name _ _ doctor Hsame).
  rewrite (set_absent _ _ _ Hid).
  repeat split; assumption.
Qed.

Lemma execute_schedules_example :
  fst (execute utc noParse smithRequest emptyClinic)
  = Ok (mkAppointment (Some "202") monday10 johnRef smithRef
          (Some "Regular Checkup") "scheduled" "")
  /\ appointmentRepository (snd (execute utc noParse smithRequest emptyClinic))
     = [(Some "202",
         mkAppointment (Some "202") monday10 johnRef smithRef
           (Some "Regular Checkup") "scheduled" "")]
  /\ console (snd (execute utc noParse smithRequest emptyClinic))
     = [EmailLine "john.doe@example.com" "Smith" monday10]
  /\ doctorRepository (snd (execute utc noParse smithRequest emptyClinic))
     = doctorRepository emptyClinic
  /\ patientRepository (snd (execute utc noParse smithRequest emptyClinic))
     = patientRepository emptyClinic
  /\ patientHeap (snd (execute utc noParse smithRequest emptyClinic))
     = patientHeap emptyClinic.
Proof.
  exact (execute_schedules utc noParse smithRequest emptyClinic monday10 johnRef
           smithRef eq_refl eq_refl eq_refl eq_refl eq_refl eq_refl eq_refl eq_refl
           eq_refl).
Defined.

(** [execute] returns only on that path: whenever it returns, the date was
    valid, both ids were given, the patient and the doctor were stored, no
    stored appointment sat at the instant, the instant was within the
    doctor's working hours and the appointment id was not yet stored. *)
Theorem execute_returns_only_when tz parse appointmentData st appointment st' :
  execute tz parse appointmentData st = (Ok appointment, st') ->
  validDate (requestDate parse (ad_date appointmentData)) = true
  /\ truthyId (requestPatientId appointmentData) = true
  /\ truthyId (requestDoctorId appointmentData) = true
  /\ Repository.findById (patientRepository st) (requestPatientId appointmentData)
     = Some (a_patient appointment)
  /\ Repository.findById (doctorRepository st) (requestDoctorId appointmentData)
     = Some (a_doctor appointment)
  /\ anyAppointmentAt st (a_date appointment) = false
  /\ isWithinWorkingHours tz (doctorHeap st (a_doctor appointment))
       (a_date appointment) = Ok true
  /\ Repository.findById (appointmentRepository st) (ad_id appointmentData) = None.
Proof.
  intros H.
  apply execute_Ok_inv in H
    as (date & patient & doctor & st1 & repo' & Hdate & Hvalid & Hpid & Hdid
        & Hpatient & Hdoctor & Havail & -> & Hadd & _).
  cbn [a_patient a_doctor a_date].
  destruct (isDoctorAvailable_date tz (requestDoctorId appointmentData) date st
              doctor Hdoctor) as (st2 & Hsame & Hrun).
  rewrite Hrun in Havail. rewrite Hdid in Havail. cbn [andb] in Havail.
  destruct (anyAppointmentAt st date) eqn:Hbusy.
  { destruct (toISOString date); discriminate. }
  destruct (isWithinWorkingHours tz (doctorHeap st doctor) date) as [[|]|e] eqn:Hw.
  2: { destruct (toISOString date); discriminate. }
  2: discriminate.
  injection Havail as <-.
  destruct Hsame as (_ & _ & _ & Ha & _ & _).
  apply add_absent in Hadd as (Hget & _). rewrite Ha in Hget.
  rewrite Hdate. cbn [validDate]. rewrite Hvalid.
  repeat split; assumption.
Qed.

Lemma execute_returns_only_when_example :
  validDate (requestDate noParse (ad_date smithRequest)) = true
  /\ truthyId (requestPatientId smithRequest) = true
  /\ truthyId (requestDoctorId smithRequest) = true
  /\ Repository.findById (patientRepository emptyClinic)
       (requestPatientId smithRequest) = Some johnRef
  /\ Repository.findById (doctorRepository emptyClinic)
       (requestDoctorId smithRequest) = Some smithRef
  /\ anyAppointmentAt emptyClinic monday10 = false
  /\ isWithinWorkingHours utc (doctorHeap emptyClinic smithRef) monday10 = Ok true
  /\ Repository.findById (appointmentRepository emptyClinic) (ad_id smithRequest)
     = None.
Proof.
  exact (execute_returns_only_when utc noParse smithRequest emptyClinic
           (mkAppointment (Some "202") monday10 johnRef smithRef
              (Some "Regular Checkup") "scheduled" "")
           (snd (execute utc noParse smithRequest emptyClinic)) eq_refl).
Defined.

(** [execute], the paths that raise: whenever it raises, the appointment
    store, the doctor and patient repositories and the patients are exactly as
    before the call, and the console has gained at most the one rejection
    line of the availability check: no appointment was added and no email
    was sent. *)
Theorem execute_raise_adds_nothing tz parse appointmentData st e st' :
  execute tz parse appointmentData st = (Throw e, st') ->
  appointmentRepository st' = appointmentRepository st
  /\ doctorRepository st' = doctorRepository st
  /\ patientRepository st' = patientRepository st
  /\ patientHeap st' = patientHeap st
  /\ exists lines,
       console st' = (console st ++ lines)%list
       /\ (lines = []
           \/ exists iso, lines = [ConflictLine iso] \/ lines = [OutsideHoursLine iso]).
Proof.
  assert (Hsame : forall st0 : Store,
            appointmentRepository st0 = appointmentRepository st0
            /\ doctorRepository st0 = doctorRepository st0
            /\ patientRepository st0 = patientRepository st0
            /\ patientHeap st0 = patientHeap st0
            /\ exists lines,
                 console st0 = (console st0 ++ lines)%list
                 /\ (lines = []
                     \/ exists iso,
                          lines = [ConflictLine iso] \/ lines = [OutsideHoursLine iso])).
  { intros st0. repeat split. exists []. rewrite app_nil_r. auto. }
  unfold execute.
  destruct (requestDate parse (ad_date appointmentData)) as [date|s|].
  2,3: intros [= _ <-]; apply Hsame.
  destruct (isNaN (getTime date)); [intros [= _ <-]; apply Hsame|].
  cbv zeta.
  destruct (negb _ || negb _); [intros [= _ <-]; apply Hsame|].
  unfold bind at 1. unfold findPatientById at 1, gets at 1.
  destruct (Repository.findById (patientRepository st) _) as [patient|];
    [|intros [= _ <-]; apply Hsame].
  unfold bind at 1. unfold findDoctorById at 1, gets at 1.
  destruct (Repository.findById (doctorRepository st) _) as [doctor|];
    [|intros [= _ <-]; apply Hsame].
  unfold bind at 1.
  pose proof (isDoctorAvailable_effects tz (requestDoctorId appointmentData)
                (VDate date) st) as (Hfr & lines & Hlines & Hshape).
  destruct (isDoctorAvailable tz (requestDoctorId appointmentData) (VDate date) st)
    as [[available|e1] st1].
  - cbn [fst snd] in Hfr, Hlines, Hshape.
    destruct Hfr as (Hp & Hd & Hpr & Ha & _ & _).
    cbn [patientHeap doctorRepository patientRepository appointmentRepository
           withConsole] in Hp, Hd, Hpr, Ha.
    destruct available; cbn [negb].
    + unfold bind, gets, lift, modify, notifyAppointmentScheduled,
        sendEmailNotification, consoleLog, modify, ret.
      destruct (Repository.add (appointmentRepository st1) _ _); [discriminate|].
      intros [= _ <-]. subst lines. repeat split; try assumption.
      exists []. split; [exact Hlines|left; reflexivity].
    + intros [= _ <-]. repeat split; try assumption.
      exists lines. split; [exact Hlines|right; exact Hshape].
  - cbn [fst snd] in Hfr, Hlines, Hshape.
    destruct Hfr as (Hp & Hd & Hpr & Ha & _ & _).
    cbn [patientHeap doctorRepository patientRepository appointmentRepository
           withConsole] in Hp, Hd, Hpr, Ha.
    intros [= _ <-]. subst lines. repeat split; try assumption.
    exists []. split; [exact Hlines|left; reflexivity].
Qed.

Lemma execute_raise_adds_nothing_example :
  appointmentRepository (snd (execute utc noParse smithRequest clinic))
  = appointmentRepository clinic
  /\ doctorRepository (snd (execute utc noParse smithRequest clinic))
     = doctorRepository clinic
  /\ patientRepository (snd (execute utc noParse smithRequest clinic))
     = patientRepository clinic
  /\ patientHeap (snd (execute utc noParse smithRequest clinic)) = patientHeap clinic
  /\ exists lines,
       console (snd (execute utc noParse smithRequest clinic))
       = (console clinic ++ lines)%list
       /\ (lines = []
           \/ exists iso, lines = [ConflictLine iso] \/ lines = [OutsideHoursLine iso]).
Proof.
  exact (execute_raise_adds_nothing utc noParse smithRequest clinic
           (Error "Doctor is not available at the requested time")
           (snd (execute utc noParse smithRequest clinic)) eq_refl).
Defined.

(** [execute], the checks before the availability check: a date that is no
    valid date raises [Invalid appointment date]; with a valid date, both ids
    and a stored patient, a doctor id that is not stored raises
    [Doctor not found].  Both leave the store untouched. *)
Theorem execute_rejects_early tz parse appointmentData st :
  (validDate (requestDate parse (ad_date appointmentData)) = false ->
   execute tz parse appointmentData st
   = (Throw (Error "Invalid appointment date"), st))
  /\ (validDate (requestDate parse (ad_date appointmentData)) = true ->
      truthyId (requestPatientId appointmentData) = true ->
      truthyId (requestDoctorId appointmentData) = true ->
      Repository.has (patientRepository st) (requestPatientId appointmentData)
      = true ->
      Repository.findById (doctorRepository st) (requestDoctorId appointmentData)
      = None ->
      execute tz parse appointmentData st = (Throw (Error "Doctor not found"), st)).
Proof.
  unfold execute. split.
  - destruct (requestDate parse (ad_date appointmentData)) as [date|s|];
      try reflexivity.
    cbn [validDate]. intros Hinv. apply negb_false_iff in Hinv. rewrite Hinv.
    reflexivity.
  - destruct (requestDate parse (ad_date appointmentData)) as [date|s|];
      try discriminate.
    cbn [validDate]. intros Hvalid Hpid Hdid Hpatient Hdoctor.
    apply negb_true_iff in Hvalid. rewrite Hvalid. cbv zeta.
    rewrite Hpid, Hdid. cbn [negb orb].
    unfold bind, findPatientById, findDoctorById, gets.
    unfold Repository.has, Repository.findById in *.
    destruct (Repository.get (patientRepository st) _); [|discriminate].
    rewrite Hdoctor. reflexivity.
Qed.

Lemma execute_rejects_early_example :
  execute utc noParse
    (mkAppointmentData (Some "204") (VString "next monday") (Some "1") None
       (Some "101") None None None None) clinic
  = (Throw (Error "Invalid appointment date"), clinic)
  /\ execute utc noParse
       (mkAppointmentData (Some "204") (VDate monday10) (Some "1") None
          (Some "404") None None None None) clinic
     = (Throw (Error "Doctor not found"), clinic).
Proof.
  exact (conj
           (proj1 (execute_rejects_early utc noParse
                     (mkAppointmentData (Some "204") (VString "next monday")
                        (Some "1") None (Some "101") None None None None) clinic)
              eq_refl)
           (proj2 (execute_rejects_early utc noParse
                     (mkAppointmentData (Some "204") (VDate monday10) (Some "1")
                        None (Some "404") None None None None) clinic)
              eq_refl eq_refl eq_refl eq_refl eq_refl)).
Defined.

(** [execute] and the instant it booked: once [execute] has returned an
    appointment, the availability check at that appointment's instant answers
    false for every stored doctor with a truthy id, on any host clock, and a
    further request for that instant whose patient and doctor are stored is
    refused with [Doctor is not available at the requested time]. *)
Theorem execute_blocks_the_instant tz parse appointmentData st appointment st' :
  execute tz parse appointmentData st = (Ok appointment, st') ->
  (forall tz' doctorId,
     truthyId doctorId = true ->
     Repository.has (doctorRepository st') doctorId = true ->
     fst (isDoctorAvailable tz' doctorId (VDate (a_date appointment)) st')
     = Ok false)
  /\ (forall tz' parse' again,
        requestDate parse' (ad_date again) = VDate (a_date appointment) ->
        truthyId (requestPatientId again) = true ->
        truthyId (requestDoctorId again) = true ->
        Repository.has (patientRepository st') (requestPatientId again) = true ->
        Repository.has (doctorRepository st') (requestDoctorId again) = true ->
        fst (execute tz' parse' again st')
        = Throw (Error "Doctor is not available at the requested time")).
Proof.
  intros H.
  apply execute_Ok_inv in H
    as (date & patient & doctor & st1 & repo' & _ & Hvalid & _ & _ & _ & _ & _
        & -> & Hadd & ->).
  cbn [a_date].
  apply add_absent in Hadd as (_ & ->).
  set (st' := withConsole _ _).
  assert (Hbusy : anyAppointmentAt st' date = true).
  { unfold anyAppointmentAt, Repository.findAll. subst st'.
    cbn [appointmentRepository withConsole withAppointmentRepository].
    rewrite map_app, existsb_app. cbn [map existsb snd a_date].
    destruct (getTime date); [discriminate|].
    cbn [strictEq]. rewrite Z.eqb_refl. apply orb_true_r. }
  assert (Hcheck : forall tz' doctorId,
            truthyId doctorId = true ->
            Repository.has (doctorRepository st') doctorId = true ->
            exists st2,
              isDoctorAvailable tz' doctorId (VDate date) st' = (Ok false, st2)).
  { intros tz' doctorId Htruthy Hhas. unfold Repository.has in Hhas.
    destruct (Repository.get (doctorRepository st') doctorId) as [d|] eqn:Hget;
      [|discriminate].
    apply (isDoctorAvailable_conflict tz' doctorId date st' d Hget Htruthy Hbusy
             Hvalid). }
  split.
  - intros tz' doctorId Htruthy Hhas.
    destruct (Hcheck tz' doctorId Htruthy Hhas) as (st2 & ->). reflexivity.
  - intros tz' parse' again Hdate Hpid Hdid Hpatient Hdoctor.
    destruct (Hcheck tz' _ Hdid Hdoctor) as (st2 & Hrun).
    unfold execute. rewrite Hdate, Hvalid. cbv zeta. rewrite Hpid, Hdid.
    cbn [negb orb].
    unfold Repository.has in Hpatient, Hdoctor.
    destruct (Repository.get (patientRepository st') (requestPatientId again))
      as [p|] eqn:Hp; [|discriminate].
    destruct (Repository.get (doctorRepository st') (requestDoctorId again))
      as [d|] eqn:Hd; [|discriminate].
    rewrite (bind_run _ _ st' (Some p) st')
      by (unfold findPatientById, gets, Repository.findById; rewrite Hp; reflexivity).
    rewrite (bind_run _ _ st' (Some d) st')
      by (unfold findDoctorById, gets, Repository.findById; rewrite Hd; reflexivity).
    rewrite (bind_run _ _ _ _ _ Hrun). reflexivity.
Qed.

Lemma execute_blocks_the_instant_example :
  (forall tz' doctorId,
     truthyId doctorId = true ->
     Repository.has
       (doctorRepository (snd (execute utc noParse smithRequest emptyClinic)))
       doctorId = true ->
     fst (isDoctorAvailable tz' doctorId (VDate monday10)
            (snd (execute utc noParse smithRequest emptyClinic)))
     = Ok false)
  /\ (forall tz' parse' again,
        requestDate parse' (ad_date again) = VDate monday10 ->
        truthyId (requestPatientId again) = true ->
        truthyId (requestDoctorId again) = true ->
        Repository.has
          (patientRepository (snd (execute utc noParse smithRequest emptyClinic)))
          (requestPatientId again) = true ->
        Repository.has
          (doctorRepository (snd (execute utc noParse smithRequest emptyClinic)))
          (requestDoctorId again) = true ->
        fst (execute tz' parse' again
               (snd (execute utc noParse smithRequest emptyClinic)))
        = Throw (Error "Doctor is not available at the requested time")).
Proof.
  exact (execute_blocks_the_instant utc noParse smithRequest emptyClinic
           (mkAppointment (Some "202") monday10 johnRef smithRef
              (Some "Regular Checkup") "scheduled" "")
           (snd (execute utc noParse smithRequest emptyClinic)) eq_refl).
Defined.

(** ** Well-formed slots, in both copies of the parser *)

Lemma includes_dash_cons c s :
  includes (String c s) "-" = false -> c <> "-"%char /\ includes s "-" = false.
Proof.
  cbn [includes]. intros H. apply orb_false_iff in H as (Hp & Hs).
  split; [|exact Hs].
  intros ->. cbn [String.prefix] in Hp.
  destruct (ascii_dec "-" "-"); [destruct s; discriminate Hp|contradiction].
Qed.

Lemma splitFrom_skip sep k cur c r :
  splitFrom sep (S k) cur (String c r) = splitFrom sep k cur r.
Proof. reflexivity. Qed.

Lemma splitFrom_at sep cur c r :
  splitFrom sep O cur (String c r)
  = if String.prefix sep (String c r)
    then cur :: splitFrom sep (Nat.pred (String.length sep)) EmptyString r
    else splitFrom sep O (cur +:+ String c EmptyString) r.
Proof. reflexivity. Qed.

Lemma prefix_cons_same c s r :
  String.prefix (String c s) (String c r) = String.prefix s r.
Proof.
  cbn [String.prefix]. destruct (ascii_dec c c); [reflexivity|contradiction].
Qed.

(** A text without a dash, the separator, a text without the separator: the
    split gives back the two texts. *)
Lemma split_slot s t :
  includes s "-" = false ->
  includes t " - " = false ->
  split (s +:+ " - " +:+ t) " - " = [s; t].
Proof.
  intros Hs Ht. unfold split.
  enough (Hgen : forall cur,
            splitFrom " - " O cur (s +:+ " - " +:+ t) = [cur +:+ s; t])
    by (apply (Hgen EmptyString)).
  induction s as [|c s IH]; intros cur.
  - rewrite append_empty_r.
    change (EmptyString +:+ " - " +:+ t)
      with (String " " (String "-" (String " " t))).
    rewrite splitFrom_at.
    replace (String.prefix " - " (String " " (String "-" (String " " t))))
      with true by (rewrite !prefix_cons_same; destruct t; reflexivity).
    change (Nat.pred (String.length " - ")) with 2%nat.
    rewrite !splitFrom_skip, (splitFrom_not_includes _ _ Ht). reflexivity.
  - apply includes_dash_cons in Hs as (Hc & Hs).
    rewrite append_String, splitFrom_at.
    assert (Hp : String.prefix " - " (String c (s +:+ " - " +:+ t)) = false).
    { cbn [String.prefix].
      destruct (ascii_dec " " c) as [<-|]; [|reflexivity].
      destruct s as [|c2 s].
      - reflexivity.
      - apply includes_dash_cons in Hs as (Hc2 & _).
        rewrite append_String. cbn [String.prefix].
        destruct (ascii_dec "-" c2) as [<-|]; [contradiction|reflexivity]. }
    rewrite Hp, (IH Hs). rewrite append_cons_assoc. reflexivity.
Qed.

Lemma clock12_plain m :
  0 <= m < 1440 ->
  includes (clock12 m) "-" = false /\ includes (clock12 m) " - " = false.
Proof.
  intros Hm.
  assert (Hall : forallb
            (fun m => negb (includes (clock12 m) "-")
                      && negb (includes (clock12 m) " - "))
            minutesOfDay = true) by (vm_compute; reflexivity).
  rewrite forallb_forall in Hall.
  assert (Hin : In m minutesOfDay).
  { unfold minutesOfDay. apply in_map_iff. exists (Z.to_nat m).
    split; [lia|apply in_seq; lia]. }
  specialize (Hall m Hin). apply andb_true_iff in Hall as (H1 & H2).
  apply negb_true_iff in H1, H2. split; assumption.
Qed.

Lemma split_slotText a b :
  0 <= a < 1440 -> 0 <= b < 1440 ->
  split (slotText a b) " - " = [clock12 a; clock12 b].
Proof.
  intros Ha Hb. unfold slotText.
  apply split_slot; [apply (clock12_plain a Ha)|apply (clock12_plain b Hb)].
Qed.

Lemma isTimeWithinSlot_slotText a b m :
  0 <= a < 1440 -> 0 <= b < 1440 -> 0 <= m < 1440 ->
  isTimeWithinSlot (clock12 m) (slotText a b) = Ok ((a <=? m) && (m <=? b)).
Proof.
  intros Ha Hb Hm. unfold isTimeWithinSlot.
  rewrite (split_slotText a b Ha Hb). cbn [nth_error].
  rewrite (clock12_parses m Hm), (clock12_parses a Ha), (clock12_parses b Hb).
  reflexivity.
Qed.

Lemma isWithinWorkingHours_rota tz d entries t :
  hours (d_workingHours d) = map rotaEntry entries ->
  rotaInDay entries ->
  isWithinWorkingHours tz d (mkDate (Fin t))
  = Ok (existsb (entryCovers (weekdayName (localDay tz t)) (localMinutes tz t))
          entries).
Proof.
  intros Hhours Hday. unfold isWithinWorkingHours. rewrite Hhours.
  unfold toLocaleDateString_weekday, toLocaleTimeString_hm. cbn [getTime].
  clear Hhours. induction Hday as [|[[dy a] b] entries (Ha & Hb) _ IH].
  - reflexivity.
  - cbn [map rotaEntry some existsb entryCovers day timeSlot].
    destruct (String.eqb dy (weekdayName (localDay tz t))); cbn [andb].
    + rewrite (isTimeWithinSlot_slotText a b _ Ha Hb (localMinutes_range tz t)).
      destruct ((a <=? localMinutes tz t) && (localMinutes tz t <=? b)).
      * reflexivity.
      * rewrite IH. reflexivity.
    + rewrite IH. reflexivity.
Qed.

(** Availability, in full, for a doctor whose slots are well formed: when
    every entry of the stored doctor's working hours is a day with a slot
    written on the [en-US] clock, the check for a valid date returns, and it
    answers true exactly when no stored appointment sits at the instant (for a
    truthy doctor id) and some entry names the local weekday and covers the
    local minute, first and last minute of the slot included. *)
Theorem isDoctorAvailable_on_rota tz st doctorId doctor entries t :
  Repository.findById (doctorRepository st) doctorId = Some doctor ->
  hours (d_workingHours (doctorHeap st doctor)) = map rotaEntry entries ->
  rotaInDay entries ->
  fst (isDoctorAvailable tz doctorId (VDate (mkDate (Fin t))) st)
  = Ok (negb (truthyId doctorId && anyAppointmentAt st (mkDate (Fin t)))
        && existsb (entryCovers (weekdayName (localDay tz t)) (localMinutes tz t))
             entries).
Proof.
  intros Hfound Hhours Hday.
  destruct (isDoctorAvailable_date tz doctorId (mkDate (Fin t)) st doctor Hfound)
    as (st1 & _ & ->).
  rewrite (isWithinWorkingHours_rota tz _ entries t Hhours Hday).
  destruct (truthyId doctorId && anyAppointmentAt st (mkDate (Fin t)));
    [reflexivity|].
  destruct (existsb _ entries); reflexivity.
Qed.

Lemma rotaInDay_nine_to_five : rotaInDay [("Monday", 540, 1020)].
Proof. unfold rotaInDay. repeat constructor; lia. Qed.

Lemma isDoctorAvailable_on_rota_example :
  fst (isDoctorAvailable utc (Some "101") (VDate monday17) emptyClinic)
  = Ok (negb (truthyId (Some "101") && anyAppointmentAt emptyClinic monday17)
        && existsb (entryCovers (weekdayName (localDay utc 1719853200000))
                      (localMinutes utc 1719853200000))
             [("Monday", 540, 1020)]).
Proof.
  exact (isDoctorAvailable_on_rota utc emptyClinic (Some "101") smithRef
           [("Monday", 540, 1020)] 1719853200000 eq_refl eq_refl
           rotaInDay_nine_to_five).
Defined.

Lemma workingHoursService_clock12 m :
  0 <= m < 1440 ->
  WorkingHoursService.timeToMinutes (Some (clock12 m)) = Ok (Fin (midnightAsNoon m)).
Proof.
  intros Hm.
  assert (Hall : forallb
            (fun m => match WorkingHoursService.timeToMinutes (Some (clock12 m)) with
                      | Ok (Fin n) => n =? midnightAsNoon m
                      | _ => false
                      end)
            minutesOfDay = true) by (vm_compute; reflexivity).
  rewrite forallb_forall in Hall.
  assert (Hin : In m minutesOfDay).
  { unfold minutesOfDay. apply in_map_iff. exists (Z.to_nat m).
    split; [lia|apply in_seq; lia]. }
  specialize (Hall m Hin).
  destruct (WorkingHoursService.timeToMinutes (Some (clock12 m))) as [[|n]|e];
    try discriminate Hall.
  apply Z.eqb_eq in Hall. rewrite Hall. reflexivity.
Qed.

(** The two copies of [isTimeWithinSlot] on a well-formed slot and a clock
    time: the availability service answers whether the minute lies from the
    first to the last minute of the slot, both included; the working-hours
    service's older copy gives the same answer only after moving every time
    of the hour after midnight (12:00 AM to 12:59 AM) twelve hours on, because
    it never turns 12 AM into hour 0. *)
Theorem isTimeWithinSlot_two_copies a b m :
  0 <= a < 1440 -> 0 <= b < 1440 -> 0 <= m < 1440 ->
  isTimeWithinSlot (clock12 m) (slotText a b) = Ok ((a <=? m) && (m <=? b))
  /\ WorkingHoursService.isTimeWithinSlot (clock12 m) (slotText a b)
     = Ok ((midnightAsNoon a <=? midnightAsNoon m)
           && (midnightAsNoon m <=? midnightAsNoon b)).
Proof.
  intros Ha Hb Hm. split; [apply isTimeWithinSlot_slotText; assumption|].
  unfold WorkingHoursService.isTimeWithinSlot.
  rewrite (split_slotText a b Ha Hb). cbn [nth_error].
  rewrite (workingHoursService_clock12 m Hm), (workingHoursService_clock12 a Ha),
    (workingHoursService_clock12 b Hb).
  reflexivity.
Qed.

Lemma isTimeWithinSlot_two_copies_example :
  isTimeWithinSlot "12:30 AM" "12:00 AM - 06:00 AM" = Ok true
  /\ WorkingHoursService.isTimeWithinSlot "12:30 AM" "12:00 AM - 06:00 AM" = Ok false.
Proof.
  exact (isTimeWithinSlot_two_copies 0 360 30
           (conj (Zle_bool_imp_le 0 0 eq_refl) eq_refl)
           (conj (Zle_bool_imp_le 0 360 eq_refl) eq_refl)
           (conj (Zle_bool_imp_le 0 30 eq_refl) eq_refl)).
Defined.

(** ** Adding working hours *)

Lemma addDoctorWorkingHours_duplicate_run st doctorId doctor day_ timeSlot_ :
  Repository.findById (doctorRepository st) doctorId = Some doctor ->
  In (mkWorkingHour day_ timeSlot_) (hours (d_workingHours (doctorHeap st doctor))) ->
  addDoctorWorkingHours doctorId day_ timeSlot_ st
  = (Throw (Error "Working hours already exists for this doctor"), st).
Proof.
  intros Hfound Hin.
  unfold addDoctorWorkingHours, bind, findDoctorById, readDoctor, gets.
  rewrite Hfound.
  replace (existsb _ _) with true; [reflexivity|].
  symmetry. apply existsb_exists.
  exists (mkWorkingHour day_ timeSlot_). split; [exact Hin|].
  cbn [day timeSlot]. rewrite !String.eqb_refl. reflexivity.
Qed.

Lemma get_set_other {V} (data : Repository.t V) id entity k :
  k <> id ->
  Repository.get (Repository.set data id entity) k = Repository.get data k.
Proof.
  intros Hne. induction data as [|[k0 v] r IH]; cbn [Repository.set Repository.get].
  - rewrite decide_False by congruence. reflexivity.
  - destruct (decide (k0 = id)) as [->|Hk0]; cbn [Repository.get].
    + rewrite !decide_False by congruence. reflexivity.
    + rewrite IH. reflexivity.
Qed.

Lemma existsb_matching_hour day_ timeSlot_ l :
  ~ In (mkWorkingHour day_ timeSlot_) l ->
  existsb
    (fun workingHour =>
       String.eqb (day workingHour) day_
       && String.eqb (timeSlot workingHour) timeSlot_) l = false.
Proof.
  intros Hnot. apply not_true_is_false. intros Hex.
  apply existsb_exists in Hex as ([d s] & Hin & Hmatch).
  cbn [day timeSlot] in Hmatch. apply andb_true_iff in Hmatch as (Hd & Hs).
  apply String.eqb_eq in Hd, Hs. subst. contradiction.
Qed.

(** [addDoctorWorkingHours] with a pair the doctor does not have yet, when
    the [id] field of the doctor found is a key of the doctor repository: the
    call returns the doctor, the pair is appended as the last entry, and the
    repository holds the doctor under that [id] field and every other key as
    before.  Asking again for the same pair raises the duplicate error on the
    store the first call left, and changes nothing. *)
Theorem addDoctorWorkingHours_adds st doctorId doctor day_ timeSlot_ :
  Repository.findById (doctorRepository st) doctorId = Some doctor ->
  ~ In (mkWorkingHour day_ timeSlot_) (hours (d_workingHours (doctorHeap st doctor))) ->
  Repository.has (doctorRepository st) (d_id (doctorHeap st doctor)) = true ->
  let st' := snd (addDoctorWorkingHours doctorId day_ timeSlot_ st) in
  fst (addDoctorWorkingHours doctorId day_ timeSlot_ st) = Ok doctor
  /\ hours (d_workingHours (doctorHeap st' doctor))
     = (hours (d_workingHours (doctorHeap st doctor))
        ++ [mkWorkingHour day_ timeSlot_])%list
  /\ Repository.findById (doctorRepository st') (d_id (doctorHeap st doctor))
     = Some doctor
  /\ (forall k, k <> d_id (doctorHeap st doctor) ->
        Repository.findById (doctorRepository st') k
        = Repository.findById (doctorRepository st) k)
  /\ addDoctorWorkingHours doctorId day_ timeSlot_ st'
     = (Throw (Error "Working hours already exists for this doctor"), st').
Proof.
  intros Hfound Hnew Hkey. cbv zeta.
  set (hs := (hours (d_workingHours (doctorHeap st doctor))
              ++ [mkWorkingHour day_ timeSlot_])%list).
  set (st1 := withDoctorHeap
                (heapSet (doctorHeap st) doctor (setHours hs (doctorHeap st doctor)))
                st).
  set (st2 := withDoctorRepository
                (Repository.set (doctorRepository st)
                   (d_id (doctorHeap st doctor)) doctor) st1).
  assert (Hrun : addDoctorWorkingHours doctorId day_ timeSlot_ st = (Ok doctor, st2)).
  { unfold addDoctorWorkingHours.
    rewrite (bind_run _ _ st (Some doctor) st)
      by (unfold findDoctorById, gets; rewrite Hfound; reflexivity).
    rewrite (bind_run _ _ st (doctorHeap st doctor) st) by reflexivity.
    rewrite (existsb_matching_hour _ _ _ Hnew).
    rewrite (bind_run _ _ st tt st1) by reflexivity.
    rewrite (bind_run _ _ st1 tt st2); [reflexivity|].
    unfold updateDoctor.
    rewrite (bind_run _ _ st1 (doctorHeap st1 doctor) st1) by reflexivity.
    rewrite (bind_run _ _ st1 (doctorRepository st) st1) by reflexivity.
    assert (Hid : d_id (doctorHeap st1 doctor) = d_id (doctorHeap st doctor)).
    { subst st1. cbn [doctorHeap withDoctorHeap]. unfold heapSet.
      rewrite decide_True by reflexivity. reflexivity. }
    rewrite Hid. unfold Repository.update. rewrite Hkey.
    rewrite (bind_run _ _ st1 _ st1) by reflexivity. reflexivity. }
  assert (Hhours : hours (d_workingHours (doctorHeap st2 doctor)) = hs).
  { subst st2 st1. cbn [doctorHeap withDoctorHeap withDoctorRepository].
    unfold heapSet. rewrite decide_True by reflexivity. reflexivity. }
  assert (Hother : forall k, k <> d_id (doctorHeap st doctor) ->
            Repository.findById (doctorRepository st2) k
            = Repository.findById (doctorRepository st) k).
  { intros k Hk. subst st2. cbn [doctorRepository withDoctorRepository].
    unfold Repository.findById. apply get_set_other. exact Hk. }
  assert (Hself : Repository.findById (doctorRepository st2)
                    (d_id (doctorHeap st doctor)) = Some doctor).
  { subst st2. cbn [doctorRepository withDoctorRepository].
    unfold Repository.findById. apply get_set_same. }
  rewrite Hrun. cbn [fst snd].
  repeat split; try assumption.
  apply (addDoctorWorkingHours_duplicate_run st2 doctorId doctor).
  - destruct (decide (doctorId = d_id (doctorHeap st doctor))) as [->|Hne].
    + exact Hself.
    + rewrite (Hother _ Hne). exact Hfound.
  - rewrite Hhours. subst hs. apply in_or_app. right. left. reflexivity.
Qed.

Lemma addDoctorWorkingHours_adds_example :
  let st' := snd (addDoctorWorkingHours (Some "101") "Tuesday" "09:00 AM - 05:00 PM"
                    clinic) in
  fst (addDoctorWorkingHours (Some "101") "Tuesday" "09:00 AM - 05:00 PM" clinic)
  = Ok smithRef
  /\ hours (d_workingHours (doctorHeap st' smithRef))
     = [mkWorkingHour "Monday" "09:00 AM - 05:00 PM";
        mkWorkingHour "Tuesday" "09:00 AM - 05:00 PM"]
  /\ Repository.findById (doctorRepository st') (Some "101") = Some smithRef
  /\ (forall k, k <> Some "101" ->
        Repository.findById (doctorRepository st') k
        = Repository.findById (doctorRepository clinic) k)
  /\ addDoctorWorkingHours (Some "101") "Tuesday" "09:00 AM - 05:00 PM" st'
     = (Throw (Error "Working hours already exists for this doctor"), st').
Proof.
  refine (addDoctorWorkingHours_adds clinic (Some "101") smithRef "Tuesday"
            "09:00 AM - 05:00 PM" eq_refl _ eq_refl).
  intros [H|[]]. discriminate H.
Defined.

(** ** The controllers' answers *)

(** [checkAvailability] never reports availability: whatever doctor id and
    query date it is given, it answers 500 with [Internal server error.] and
    leaves the store as it was.  The date it hands to the service is the
    query text, which is no [Date], and the service's [Doctor not found] is
    not the [Doctor not found.] the handler looks for. *)
Theorem checkAvailability_always_500 tz parse doctorId date st :
  checkAvailability tz parse doctorId date st
  = (mkResponse 500 (ErrorBody "Internal server error."), st).
Proof.
  unfold checkAvailability, tryCatch.
  destruct date as [s|]; cbn [getTime isNaN].
  - destruct (isNaN (parse s)); [reflexivity|].
    unfold isDoctorAvailable, bind, findDoctorById, gets.
    destruct (Repository.findById (doctorRepository st) doctorId); reflexivity.
  - reflexivity.
Qed.

(** [listWorkingHours] of the controller never answers 200: for a stored
    doctor it answers 400 with the [TypeError] text of the service, for an
    unknown one 400 with [Doctor not found]; the store is untouched. *)
Theorem listWorkingHoursHandler_always_400 id st :
  listWorkingHoursHandler id st
  = (mkResponse 400
       (ErrorBody
          (if Repository.has (doctorRepository st) id
           then "doctor.workingHours.hours is not a function"
           else "Doctor not found")),
     st).
Proof.
  unfold listWorkingHoursHandler, tryCatch, listWorkingHours, bind,
    findDoctorById, readDoctor, gets, lift, Repository.has, Repository.findById.
  destruct (Repository.get (doctorRepository st) id); reflexivity.
Qed.

(** The working-hours handlers and a doctor id that is not stored: none of
    them answers 404.  Adding answers 500 with [Internal server error.],
    removing answers 400 with [Doctor not found]; the store is untouched. *)
Theorem workingHoursHandlers_unknown_doctor id day_ timeSlot_ st :
  Repository.findById (doctorRepository st) id = None ->
  addWorkingHoursHandler id day_ timeSlot_ st
  = (mkResponse 500 (ErrorBody "Internal server error."), st)
  /\ removeWorkingHoursHandler id day_ timeSlot_ st
     = (mkResponse 400 (ErrorBody "Doctor not found"), st).
Proof.
  intros Habsent.
  unfold addWorkingHoursHandler, removeWorkingHoursHandler, tryCatch,
    addDoctorWorkingHours, removeWorkingHours, bind, findDoctorById, gets.
  rewrite Habsent. split; reflexivity.
Qed.

Lemma workingHoursHandlers_unknown_doctor_example :
  addWorkingHoursHandler (Some "404") "Monday" "09:00 AM - 05:00 PM" clinic
  = (mkResponse 500 (ErrorBody "Internal server error."), clinic)
  /\ removeWorkingHoursHandler (Some "404") "Monday" "09:00 AM - 05:00 PM" clinic
     = (mkResponse 400 (ErrorBody "Doctor not found"), clinic).
Proof.
  exact (workingHoursHandlers_unknown_doctor (Some "404") "Monday"
           "09:00 AM - 05:00 PM" clinic eq_refl).
Defined.

(** ** The repository base class *)

Lemma get_remove_same {V} (data : Repository.t V) id :
  Repository.get (Repository.remove data id) id = None.
Proof.
  induction data as [|[k v] r IH]; cbn [Repository.remove Repository.get];
    [reflexivity|].
  destruct (decide (k = id)) as [Heq|Hne]; [exact IH|].
  cbn [Repository.get]. rewrite decide_False by exact Hne. exact IH.
Qed.

Lemma get_remove_other {V} (data : Repository.t V) id k :
  k <> id ->
  Repository.get (Repository.remove data id) k = Repository.get data k.
Proof.
  intros Hne. induction data as [|[k0 v] r IH];
    cbn [Repository.remove Repository.get]; [reflexivity|].
  destruct (decide (k0 = id)) as [->|Hk0].
  - rewrite decide_False by congruence. exact IH.
  - cbn [Repository.get]. rewrite IH. reflexivity.
Qed.

Lemma keys_set_present {V} (data : Repository.t V) id entity :
  Repository.has data id = true ->
  map fst (Repository.set data id entity) = map fst data.
Proof.
  unfold Repository.has.
  induction data as [|[k v] r IH]; cbn [Repository.get Repository.set map fst];
    [discriminate|].
  destruct (decide (k = id)); [reflexivity|].
  intros H. cbn [map fst]. rewrite (IH H). reflexivity.
Qed.

(** [add]: under an id that is already present it raises and hands back no
    new collection; under a new id the entity is found by that id, every other
    id finds what it found before, and [findAll] lists the entity last, after
    the earlier ones in their order. *)
Theorem Repository_add {V} (data : Repository.t V) id entity :
  (Repository.has data id = true ->
   Repository.add data id entity
   = Throw (Error ("Entity with id " +:+ showId id +:+ " already exists.")))
  /\ (Repository.has data id = false ->
      exists data',
        Repository.add data id entity = Ok data'
        /\ Repository.findById data' id = Some entity
        /\ (forall k, k <> id ->
              Repository.findById data' k = Repository.findById data k)
        /\ Repository.findAll data' = (Repository.findAll data ++ [entity])%list).
Proof.
  unfold Repository.add. split; intros Hhas; rewrite Hhas; [reflexivity|].
  eexists. split; [reflexivity|].
  unfold Repository.findById, Repository.findAll.
  split; [apply get_set_same|]. split; [intros k Hk; apply get_set_other; exact Hk|].
  unfold Repository.has in Hhas.
  destruct (Repository.get data id) eqn:Hget; [discriminate|].
  rewrite (set_absent _ _ _ Hget), map_app. reflexivity.
Qed.

Lemma Repository_add_example :
  Repository.add [(Some "1", 10)] (Some "1") 11
  = Throw (Error "Entity with id 1 already exists.")
  /\ exists data',
       Repository.add [(Some "1", 10)] (Some "2") 20 = Ok data'
       /\ Repository.findById data' (Some "2") = Some 20
       /\ (forall k, k <> Some "2" ->
             Repository.findById data' k = Repository.findById [(Some "1", 10)] k)
       /\ Repository.findAll data' = [10; 20].
Proof.
  exact (conj (proj1 (Repository_add [(Some "1", 10)] (Some "1") 11) eq_refl)
           (proj2 (Repository_add [(Some "1", 10)] (Some "2") 20) eq_refl)).
Defined.

(** [update] and [delete]: on an id that is absent both raise.  On an id
    that is present, [update] puts the entity under that id and keeps the
    keys and their order, so that [findAll] keeps its length; [delete] makes
    the id absent; and both leave what every other id finds as it was. *)
Theorem Repository_update_delete {V} (data : Repository.t V) id entity :
  (Repository.has data id = false ->
   Repository.update data id entity
   = Throw (Error ("Entity with id " +:+ showId id +:+ " does not exist."))
   /\ Repository.delete data id
      = Throw (Error ("Entity with id " +:+ showId id +:+ " does not exist.")))
  /\ (Repository.has data id = true ->
      exists updated deleted,
        Repository.update data id entity = Ok updated
        /\ Repository.delete data id = Ok deleted
        /\ Repository.findById updated id = Some entity
        /\ map fst updated = map fst data
        /\ Repository.findById deleted id = None
        /\ (forall k, k <> id ->
              Repository.findById updated k = Repository.findById data k
              /\ Repository.findById deleted k = Repository.findById data k)).
Proof.
  unfold Repository.update, Repository.delete. split; intros Hhas; rewrite Hhas.
  - split; reflexivity.
  - do 2 eexists. split; [reflexivity|]. split; [reflexivity|].
    unfold Repository.findById.
    split; [apply get_set_same|].
    split; [apply keys_set_present; exact Hhas|].
    split; [apply get_remove_same|].
    intros k Hk. split; [apply get_set_other|apply get_remove_other]; exact Hk.
Qed.

Lemma Repository_update_delete_example :
  (Repository.update [(Some "1", 10)] (Some "2") 20
   = Throw (Error "Entity with id 2 does not exist.")
   /\ Repository.delete [(Some "1", 10)] (Some "2")
      = Throw (Error "Entity with id 2 does not exist."))
  /\ exists updated deleted,
       Repository.update [(Some "1", 10); (Some "2", 20)] (Some "1") 11 = Ok updated
       /\ Repository.delete [(Some "1", 10); (Some "2", 20)] (Some "1") = Ok deleted
       /\ Repository.findById updated (Some "1") = Some 11
       /\ map fst updated = [Some "1"; Some "2"]
       /\ Repository.findById deleted (Some "1") = None
       /\ (forall k, k <> Some "1" ->
             Repository.findById updated k
             = Repository.findById [(Some "1", 10); (Some "2", 20)] k
             /\ Repository.findById deleted k
                = Repository.findById [(Some "1", 10); (Some "2", 20)] k).
Proof.
  exact (conj (proj1 (Repository_update_delete [(Some "1", 10)] (Some "2") 20) eq_refl)
           (proj2 (Repository_update_delete [(Some "1", 10); (Some "2", 20)]
                     (Some "1") 11) eq_refl)).
Defined.

(** ** Registering and deleting doctors *)

Lemma get_In {V} (data : Repository.t V) k v :
  Repository.get data k = Some v -> In v (map snd data).
Proof.
  induction data as [|[k0 v0] r IH]; cbn [Repository.get map snd]; [discriminate|].
  destruct (decide (k0 = k)).
  - intros [= ->]. left. reflexivity.
  - intros H. right. apply IH. exact H.
Qed.

Lemma freshDoctorRef_unheld st ref :
  In ref (map snd (doctorRepository st)
          ++ map (fun entry => a_doctor (snd entry)) (appointmentRepository st)) ->
  ref <> freshDoctorRef st.
Proof.
  intros Hin. unfold freshDoctorRef.
  set (held := (map snd (doctorRepository st)
                ++ map (fun entry => a_doctor (snd entry))
                     (appointmentRepository st))%list) in *.
  pose proof (proj1 (list_max_le held (list_max held)) (Nat.le_refl _)) as Hall.
  rewrite List.Forall_forall in Hall. specialize (Hall ref Hin). lia.
Qed.

Lemma heapSet_same {A} (h : loc -> A) l d : heapSet h l d l = d.
Proof. unfold heapSet. rewrite decide_True by reflexivity. reflexivity. Qed.

Lemma addDoctor_run doctorData st :
  Repository.has (doctorRepository st) (dd_id doctorData) = false ->
  addDoctor doctorData st
  = (Ok (freshDoctorRef st),
     withDoctorRepository
       (Repository.set (doctorRepository st) (dd_id doctorData) (freshDoctorRef st))
       (withDoctorHeap
          (heapSet (doctorHeap st) (freshDoctorRef st)
             (newDoctor (dd_id doctorData) (dd_rcm doctorData) (dd_name doctorData)
                (dd_specialty doctorData) (dd_phoneNumber doctorData)))
          st)).
Proof.
  intros Hnew. unfold addDoctor, bind, allocDoctor, readDoctor, gets, lift, modify,
    ret, Repository.add.
  cbn [doctorHeap withDoctorHeap doctorRepository]. rewrite !heapSet_same.
  cbn [d_id newDoctor]. rewrite Hnew. reflexivity.
Qed.

(** [addDoctor] under an id that is not stored yet: the doctor is a new
    object, found under that id afterwards, with the fields of the request
    (missing ones at their defaults) and with no working hours at all.  Every
    other id finds what it found before, the doctor objects that the
    repository or an appointment holds are untouched, and so are the
    appointments.  Having no working hours, the new doctor is available at no
    valid date. *)
Theorem addDoctor_registers doctorData st :
  Repository.has (doctorRepository st) (dd_id doctorData) = false ->
  let doctor := freshDoctorRef st in
  let st' := snd (addDoctor doctorData st) in
  fst (addDoctor doctorData st) = Ok doctor
  /\ Repository.findById (doctorRepository st') (dd_id doctorData) = Some doctor
  /\ doctorHeap st' doctor
     = mkDoctor (dd_id doctorData) (default "" (dd_rcm doctorData))
         (default "" (dd_name doctorData)) (default [] (dd_specialty doctorData))
         (default "" (dd_phoneNumber doctorData)) (mkWorkingHours [])
  /\ (forall k, k <> dd_id doctorData ->
        Repository.findById (doctorRepository st') k
        = Repository.findById (doctorRepository st) k)
  /\ (forall k ref,
        Repository.findById (doctorRepository st) k = Some ref ->
        doctorHeap st' ref = doctorHeap st ref)
  /\ (forall appointment,
        In appointment (Repository.findAll (appointmentRepository st)) ->
        doctorHeap st' (a_doctor appointment) = doctorHeap st (a_doctor appointment))
  /\ appointmentRepository st' = appointmentRepository st
  /\ (forall tz date,
        isNaN (getTime date) = false ->
        fst (isDoctorAvailable tz (dd_id doctorData) (VDate date) st') = Ok false).
Proof.
  intros Hnew. cbv zeta. rewrite (addDoctor_run doctorData st Hnew).
  cbn [fst snd]. set (st' := withDoctorRepository _ _).
  assert (Hfound : Repository.findById (doctorRepository st') (dd_id doctorData)
                   = Some (freshDoctorRef st)).
  { subst st'. cbn [doctorRepository withDoctorRepository].
    unfold Repository.findById. apply get_set_same. }
  assert (Hobject : doctorHeap st' (freshDoctorRef st)
                    = newDoctor (dd_id doctorData) (dd_rcm doctorData)
                        (dd_name doctorData) (dd_specialty doctorData)
                        (dd_phoneNumber doctorData)).
  { subst st'. cbn [doctorHeap withDoctorHeap withDoctorRepository].
    unfold heapSet. rewrite decide_True by reflexivity. reflexivity. }
  assert (Hheld : forall ref,
            In ref (map snd (doctorRepository st)
                    ++ map (fun entry => a_doctor (snd entry))
                         (appointmentRepository st)) ->
            doctorHeap st' ref = doctorHeap st ref).
  { intros ref Hin. subst st'.
    cbn [doctorHeap withDoctorHeap withDoctorRepository]. unfold heapSet.
    rewrite decide_False by (apply freshDoctorRef_unheld; exact Hin). reflexivity. }
  split; [reflexivity|]. split; [exact Hfound|]. split; [exact Hobject|].
  split.
  { intros k Hk. subst st'. cbn [doctorRepository withDoctorRepository withDoctorHeap].
    unfold Repository.findById. apply get_set_other. exact Hk. }
  split.
  { intros k ref Hget. apply Hheld. apply in_or_app. left.
    apply (get_In _ k). exact Hget. }
  split.
  { intros appointment Hin. apply Hheld. apply in_or_app. right.
    unfold Repository.findAll in Hin. apply in_map_iff in Hin as (entry & <- & Hin).
    apply in_map_iff. exists entry. split; [reflexivity|exact Hin]. }
  split; [reflexivity|].
  intros tz date Hvalid.
  destruct (isDoctorAvailable_date tz (dd_id doctorData) date st' _ Hfound)
    as (st1 & _ & ->).
  rewrite Hobject. unfold isWithinWorkingHours. cbn [newDoctor d_workingHours hours some].
  unfold toISOString. destruct (getTime date); [discriminate|].
  destruct (truthyId (dd_id doctorData) && anyAppointmentAt st' _); reflexivity.
Qed.

Lemma addDoctor_registers_example :
  let doctorData :=
    mkDoctorData (Some "103") (Some "CRM00001") (Some "Lee") None None in
  let doctor := freshDoctorRef clinic in
  let st' := snd (addDoctor doctorData clinic) in
  fst (addDoctor doctorData clinic) = Ok doctor
  /\ Repository.findById (doctorRepository st') (Some "103") = Some doctor
  /\ doctorHeap st' doctor
     = mkDoctor (Some "103") "CRM00001" "Lee" [] "" (mkWorkingHours [])
  /\ (forall k, k <> Some "103" ->
        Repository.findById (doctorRepository st') k
        = Repository.findById (doctorRepository clinic) k)
  /\ (forall k ref,
        Repository.findById (doctorRepository clinic) k = Some ref ->
        doctorHeap st' ref = doctorHeap clinic ref)
  /\ (forall appointment,
        In appointment (Repository.findAll (appointmentRepository clinic)) ->
        doctorHeap st' (a_doctor appointment)
        = doctorHeap clinic (a_doctor appointment))
  /\ appointmentRepository st' = appointmentRepository clinic
  /\ (forall tz date,
        isNaN (getTime date) = false ->
        fst (isDoctorAvailable tz (Some "103") (VDate date) st') = Ok false).
Proof.
  exact (addDoctor_registers
           (mkDoctorData (Some "103") (Some "CRM00001") (Some "Lee") None None)
           clinic eq_refl).
Defined.

(** [addDoctor] under an id that is already stored raises the repository's
    duplicate error; the repository, the appointments and the doctor objects
    they hold are as before, so the stored doctor is not replaced. *)
Theorem addDoctor_duplicate doctorData st :
  Repository.has (doctorRepository st) (dd_id doctorData) = true ->
  fst (addDoctor doctorData st)
  = Throw (Error ("Entity with id " +:+ showId (dd_id doctorData)
                  +:+ " already exists."))
  /\ doctorRepository (snd (addDoctor doctorData st)) = doctorRepository st
  /\ appointmentRepository (snd (addDoctor doctorData st)) = appointmentRepository st
  /\ (forall k ref,
        Repository.findById (doctorRepository st) k = Some ref ->
        doctorHeap (snd (addDoctor doctorData st)) ref = doctorHeap st ref).
Proof.
  intros Hdup.
  assert (Hrun : addDoctor doctorData st
            = (Throw (Error ("Entity with id " +:+ showId (dd_id doctorData)
                             +:+ " already exists.")),
               withDoctorHeap
                 (heapSet (doctorHeap st) (freshDoctorRef st)
                    (newDoctor (dd_id doctorData) (dd_rcm doctorData)
                       (dd_name doctorData) (dd_specialty doctorData)
                       (dd_phoneNumber doctorData)))
                 st)).
  { unfold addDoctor, bind, allocDoctor, readDoctor, gets, lift, modify, ret,
      Repository.add.
    cbn [doctorHeap withDoctorHeap doctorRepository]. rewrite !heapSet_same.
    cbn [d_id newDoctor]. rewrite Hdup. reflexivity. }
  rewrite Hrun. cbn [fst snd doctorRepository appointmentRepository doctorHeap
                       withDoctorHeap].
  repeat split.
  intros k ref Hget. unfold heapSet. rewrite decide_False; [reflexivity|].
  apply freshDoctorRef_unheld. apply in_or_app. left. apply (get_In _ k). exact Hget.
Qed.

Lemma addDoctor_duplicate_example :
  fst (addDoctor (mkDoctorData (Some "101") None (Some "Impostor") None None) clinic)
  = Throw (Error "Entity with id 101 already exists.")
  /\ doctorRepository
       (snd (addDoctor (mkDoctorData (Some "101") None (Some "Impostor") None None)
               clinic))
     = doctorRepository clinic
  /\ appointmentRepository
       (snd (addDoctor (mkDoctorData (Some "101") None (Some "Impostor") None None)
               clinic))
     = appointmentRepository clinic
  /\ (forall k ref,
        Repository.findById (doctorRepository clinic) k = Some ref ->
        doctorHeap
          (snd (addDoctor (mkDoctorData (Some "101") None (Some "Impostor") None None)
                  clinic)) ref
        = doctorHeap clinic ref).
Proof.
  exact (addDoctor_duplicate
           (mkDoctorData (Some "101") None (Some "Impostor") None None) clinic
           eq_refl).
Defined.


